(** * CarAI-mqtt-cluster: the vehicle assistant of [matrix_publisher.py]

    A shallow embedding of the class [SimplifiedVehicleAI]: the car state
    and its transition function, the bounded action history, the
    preference learner, the rule-based recommendation generator and the
    one-shot break reminder, followed by the properties proved of them.

    Conventions of the model.
    - Action names are strings, as on the bus: unknown names are accepted.
    - The [value] of an event is [None] (JSON null, or absent) or an
      integer; Python's truthiness test [and value] is [truthy]. Values
      with a fractional part are outside the model.
    - A payload without an action name has the name [""], as
      [action_data.get('action', '')] gives it.
    - [random.choice] draws from an explicit stream of draws, threaded
      by the small monad [Rand].
    - [datetime.now()] is an argument of the methods that read the clock.
    - [self.client.publish] appends to the list [published] of the
      object; printing is not modelled. *)

From Stdlib Require Import ZArith String List Bool Lia DecimalString.
Import ListNotations.

Local Open Scope Z_scope.
Local Open Scope string_scope.

(** ** Module constants *)

Definition LEARNING_PERIOD : Z := 30.
Definition RECOMMENDATION_INTERVAL : Z := 20.
Definition BREAK_REMINDER_TIME : Z := 200.
Definition MAX_RECOMMENDATIONS_PER_SESSION : nat := 50.

(** ** Python helpers *)

(** Truthiness of an optional integer: [None] and [0] are falsy. *)
Definition truthy (value : option Z) : bool :=
  match value with
  | Some v => negb (v =? 0)%Z
  | None => false
  end.

(** The integer held by a value. It is read only behind a [truthy] test,
    where the value is an integer. *)
Definition int_of (value : option Z) : Z :=
  match value with
  | Some v => v
  | None => 0
  end.

(** [x in l] for a list (or set) of strings. *)
Definition mem (x : string) (l : list string) : bool :=
  existsb (String.eqb x) l.

(** The slice [l[-n:]] for a positive [n]: the last [n] elements, the whole
    list when it is shorter. *)
Definition last_n {A : Type} (n : nat) (l : list A) : list A :=
  skipn (length l - n) l.

(** [sum(l)] *)
Definition py_sum (l : list Z) : Z := fold_left Z.add l 0.

(** [len(l)] as an integer *)
Definition len {A : Type} (l : list A) : Z := Z.of_nat (length l).

(** [str(z)] for an integer *)
Definition str_of_Z (z : Z) : string := NilZero.string_of_int (Z.to_int z).

(** ** Data model *)

Record ActionEvent := mkEvent {
  ev_action : string;
  ev_timestamp : string;
  ev_value : option Z
}.

(** The payload of a bus message, after [json.loads]: every key may be
    absent. *)
Record ActionData := mkData {
  ad_action : option string;
  ad_timestamp : option string;
  ad_value : option Z
}.

Record CarState := mkCar {
  climate_on : bool;
  temperature : Z;
  infotainment_on : bool;
  volume : Z;
  lights_on : bool;
  brightness : Z;
  seats_heated : bool;
  seat_position : Z
}.

Record DriverPreferences := mkPrefs {
  preferred_temperature : Z;
  preferred_volume : Z;
  preferred_seat_position : Z;
  preferred_brightness : Z;
  likes_music : bool;
  likes_warm_seats : bool;
  common_actions : list string;
  action_sequences : list (list string)
}.

Record Recommendation := mkRec {
  rec_action : string;
  rec_message : string;
  rec_value : option Z
}.

(** What is handed to [client.publish]: the topic and the dictionary that
    [json.dumps] serialises. *)
Record Publication := mkPub {
  pub_topic : string;
  pub_type : string;
  pub_recommendations : list Recommendation;
  pub_timestamp : string
}.

(** The callbacks given to [threading.Timer]. *)
Inductive Callback := CompleteLearning | SendBreakReminder.

(** The fields of [SimplifiedVehicleAI], with the pending timers and the
    messages handed to the bus. *)
Record AI := mkAI {
  session_start : option string;
  learning_started : bool;
  learning_complete : bool;
  action_history : list ActionEvent;
  recommendations_sent : nat;
  last_recommendation_time : option string;
  break_reminder_sent : bool;
  car_state : CarState;
  driver_preferences : DriverPreferences;
  timers : list (Z * Callback);
  published : list Publication
}.

(** The state built by [__init__]. *)
Definition initial_car_state : CarState :=
  {| climate_on := false; temperature := 22;
     infotainment_on := false; volume := 50;
     lights_on := false; brightness := 80;
     seats_heated := false; seat_position := 5 |}.

Definition initial_preferences : DriverPreferences :=
  {| preferred_temperature := 22; preferred_volume := 50;
     preferred_seat_position := 5; preferred_brightness := 80;
     likes_music := false; likes_warm_seats := false;
     common_actions := []; action_sequences := [] |}.

Definition init : AI :=
  {| session_start := None;
     learning_started := false;
     learning_complete := false;
     action_history := [];
     recommendations_sent := 0;
     last_recommendation_time := None;
     break_reminder_sent := false;
     car_state := initial_car_state;
     driver_preferences := initial_preferences;
     timers := [];
     published := [] |}.

(** ** Field updates *)

Definition set_climate_on (b : bool) (s : CarState) : CarState :=
  mkCar b (temperature s) (infotainment_on s) (volume s)
        (lights_on s) (brightness s) (seats_heated s) (seat_position s).
Definition set_temperature (z : Z) (s : CarState) : CarState :=
  mkCar (climate_on s) z (infotainment_on s) (volume s)
        (lights_on s) (brightness s) (seats_heated s) (seat_position s).
Definition set_infotainment_on (b : bool) (s : CarState) : CarState :=
  mkCar (climate_on s) (temperature s) b (volume s)
        (lights_on s) (brightness s) (seats_heated s) (seat_position s).
Definition set_volume (z : Z) (s : CarState) : CarState :=
  mkCar (climate_on s) (temperature s) (infotainment_on s) z
        (lights_on s) (brightness s) (seats_heated s) (seat_position s).
Definition set_lights_on (b : bool) (s : CarState) : CarState :=
  mkCar (climate_on s) (temperature s) (infotainment_on s) (volume s)
        b (brightness s) (seats_heated s) (seat_position s).
Definition set_brightness (z : Z) (s : CarState) : CarState :=
  mkCar (climate_on s) (temperature s) (infotainment_on s) (volume s)
        (lights_on s) z (seats_heated s) (seat_position s).
Definition set_seats_heated (b : bool) (s : CarState) : CarState :=
  mkCar (climate_on s) (temperature s) (infotainment_on s) (volume s)
        (lights_on s) (brightness s) b (seat_position s).
Definition set_seat_position (z : Z) (s : CarState) : CarState :=
  mkCar (climate_on s) (temperature s) (infotainment_on s) (volume s)
        (lights_on s) (brightness s) (seats_heated s) z.

Definition set_preferred_temperature (z : Z) (p : DriverPreferences) :=
  mkPrefs z (preferred_volume p) (preferred_seat_position p)
          (preferred_brightness p) (likes_music p) (likes_warm_seats p)
          (common_actions p) (action_sequences p).
Definition set_preferred_volume (z : Z) (p : DriverPreferences) :=
  mkPrefs (preferred_temperature p) z (preferred_seat_position p)
          (preferred_brightness p) (likes_music p) (likes_warm_seats p)
          (common_actions p) (action_sequences p).
Definition set_preferred_seat_position (z : Z) (p : DriverPreferences) :=
  mkPrefs (preferred_temperature p) (preferred_volume p) z
          (preferred_brightness p) (likes_music p) (likes_warm_seats p)
          (common_actions p) (action_sequences p).
Definition set_likes_music (b : bool) (p : DriverPreferences) :=
  mkPrefs (preferred_temperature p) (preferred_volume p)
          (preferred_seat_position p) (preferred_brightness p)
          b (likes_warm_seats p) (common_actions p) (action_sequences p).
Definition set_likes_warm_seats (b : bool) (p : DriverPreferences) :=
  mkPrefs (preferred_temperature p) (preferred_volume p)
          (preferred_seat_position p) (preferred_brightness p)
          (likes_music p) b (common_actions p) (action_sequences p).
Definition set_common_actions (l : list string) (p : DriverPreferences) :=
  mkPrefs (preferred_temperature p) (preferred_volume p)
          (preferred_seat_position p) (preferred_brightness p)
          (likes_music p) (likes_warm_seats p) l (action_sequences p).

(** ** The car state store: [update_car_state]

    The method reads and writes the dictionary [self.car_state] only:
    the dictionary is the argument and the result. *)

Definition update_car_state (s : CarState) (action : string)
    (value : option Z) : CarState :=
  if action =? "climate_turn_on" then set_climate_on true s
  else if action =? "climate_turn_off" then set_climate_on false s
  else if (action =? "climate_set_temperature") && truthy value then
    set_temperature (int_of value) s
  else if action =? "climate_increase" then
    set_temperature (Z.min (temperature s + 1) 30) s
  else if action =? "climate_decrease" then
    set_temperature (Z.max (temperature s - 1) 16) s
  else if action =? "infotainment_play" then set_infotainment_on true s
  else if action =? "infotainment_stop" then set_infotainment_on false s
  else if (action =? "infotainment_set_volume") && truthy value then
    set_volume (int_of value) s
  else if action =? "infotainment_volume_up" then
    set_volume (Z.min (volume s + 10) 100) s
  else if action =? "infotainment_volume_down" then
    set_volume (Z.max (volume s - 10) 0) s
  else if action =? "lights_turn_on" then set_lights_on true s
  else if action =? "lights_turn_off" then set_lights_on false s
  else if action =? "lights_dim" then
    set_brightness (Z.max (brightness s - 20) 0) s
  else if action =? "lights_brighten" then
    set_brightness (Z.min (brightness s + 20) 100) s
  else if action =? "seats_heat_on" then set_seats_heated true s
  else if action =? "seats_heat_off" then set_seats_heated false s
  else if (action =? "seats_adjust") && truthy value then
    set_seat_position (int_of value) s
  else s.

(** The action names [update_car_state] tests for. *)
Definition known_actions : list string :=
  [ "climate_turn_on"; "climate_turn_off"; "climate_set_temperature";
    "climate_increase"; "climate_decrease";
    "infotainment_play"; "infotainment_stop"; "infotainment_set_volume";
    "infotainment_volume_up"; "infotainment_volume_down";
    "lights_turn_on"; "lights_turn_off"; "lights_dim"; "lights_brighten";
    "seats_heat_on"; "seats_heat_off"; "seats_adjust" ].

(** ** The action history: [deque(maxlen=50)] *)

Definition HISTORY_MAXLEN : nat := 50.

(** [deque.append] of a bounded deque: the element is added on the right
    and, when that exceeds [maxlen], one element is dropped on the left. *)
Definition deque_append {A : Type} (maxlen : nat) (d : list A) (x : A)
    : list A :=
  let d' := (d ++ [x])%list in
  if (maxlen <? length d')%nat then tl d' else d'.

(** ** Updates of the object's fields *)

Definition set_action_history (h : list ActionEvent) (self : AI) : AI :=
  mkAI (session_start self) (learning_started self) (learning_complete self)
       h (recommendations_sent self) (last_recommendation_time self)
       (break_reminder_sent self) (car_state self) (driver_preferences self)
       (timers self) (published self).
Definition set_car_state (c : CarState) (self : AI) : AI :=
  mkAI (session_start self) (learning_started self) (learning_complete self)
       (action_history self) (recommendations_sent self)
       (last_recommendation_time self) (break_reminder_sent self)
       c (driver_preferences self) (timers self) (published self).
Definition set_driver_preferences (p : DriverPreferences) (self : AI) : AI :=
  mkAI (session_start self) (learning_started self) (learning_complete self)
       (action_history self) (recommendations_sent self)
       (last_recommendation_time self) (break_reminder_sent self)
       (car_state self) p (timers self) (published self).
Definition set_break_reminder_sent (b : bool) (self : AI) : AI :=
  mkAI (session_start self) (learning_started self) (learning_complete self)
       (action_history self) (recommendations_sent self)
       (last_recommendation_time self) b
       (car_state self) (driver_preferences self) (timers self)
       (published self).
Definition publish (m : Publication) (self : AI) : AI :=
  mkAI (session_start self) (learning_started self) (learning_complete self)
       (action_history self) (recommendations_sent self)
       (last_recommendation_time self) (break_reminder_sent self)
       (car_state self) (driver_preferences self) (timers self)
       (published self ++ [m])%list.

(** ** The preference learner: [learn_preferences] *)

(** [Counter(l)]: the counts, keys in order of first occurrence. *)
Fixpoint counter_incr (k : string) (c : list (string * nat))
    : list (string * nat) :=
  match c with
  | [] => [(k, 1%nat)]
  | (k', n) :: c' =>
      if k' =? k then (k', S n) :: c' else (k', n) :: counter_incr k c'
  end.

Definition Counter (l : list string) : list (string * nat) :=
  fold_left (fun c k => counter_incr k c) l [].

(** The comprehension
    [[act for act in history if act['action'] == kind and act['value']]]. *)
Definition set_actions (kind : string) (history : list ActionEvent)
    : list ActionEvent :=
  filter (fun act => (ev_action act =? kind) && truthy (ev_value act)) history.

(** [[act['value'] for act in acts]] *)
Definition values_of (acts : list ActionEvent) : list Z :=
  map (fun act => int_of (ev_value act)) acts.

(** Truthiness of a list: it is not empty. *)
Definition nonempty {A : Type} (l : list A) : bool :=
  match l with [] => false | _ :: _ => true end.

Definition learn_preferences (self : AI) : AI :=
  if (length (action_history self) <? 3)%nat then self
  else
    let actions := map ev_action (action_history self) in
    let prefs := driver_preferences self in
    (* temperature preference *)
    let temp_actions :=
      set_actions "climate_set_temperature" (action_history self) in
    let prefs :=
      if nonempty temp_actions then
        let temps := values_of temp_actions in
        set_preferred_temperature (py_sum temps / len temps) prefs
      else prefs in
    (* volume preference *)
    let vol_actions :=
      set_actions "infotainment_set_volume" (action_history self) in
    let prefs :=
      if nonempty vol_actions then
        let vols := values_of vol_actions in
        set_preferred_volume (py_sum vols / len vols) prefs
      else prefs in
    (* seat position preference *)
    let seat_actions := set_actions "seats_adjust" (action_history self) in
    let prefs :=
      if nonempty seat_actions then
        let positions := values_of seat_actions in
        set_preferred_seat_position (py_sum positions / len positions) prefs
      else prefs in
    (* behaviour patterns *)
    let prefs :=
      if mem "infotainment_play" actions then set_likes_music true prefs
      else prefs in
    let prefs :=
      if mem "seats_heat_on" actions then set_likes_warm_seats true prefs
      else prefs in
    (* common actions *)
    let action_counts := Counter actions in
    let prefs :=
      set_common_actions
        (map fst (filter (fun kc => (2 <=? snd kc)%nat) action_counts))
        prefs in
    set_driver_preferences prefs self.

(** ** Random phrasing *)

(** Computations that consume random draws. *)
Definition Rand (A : Type) : Type := list nat -> A * list nat.

Definition ret {A : Type} (a : A) : Rand A := fun g => (a, g).

Definition bind {A B : Type} (c : Rand A) (k : A -> Rand B) : Rand B :=
  fun g => let (a, g') := c g in k a g'.

Notation "x <- c ;; k" := (bind c (fun x => k))
  (at level 61, c at next level, right associativity).

(** [random.choice(seq)] on a list that is not empty: the next draw,
    reduced modulo the length, selects the element. *)
Definition random_choice {A : Type} (d : A) (seq : list A) : Rand A :=
  fun g =>
    match g with
    | [] => (nth 0 seq d, [])
    | n :: g' => (nth (n mod length seq) seq d, g')
    end.

Definition morning_greetings : list string :=
  [ "Hello! Based on your preferences,";
    "Hi! I noticed you usually prefer this, so";
    "Hello! From your driving patterns,";
    "Hi again! Your typical routine suggests" ].

(** The entries of the dictionary [suggestions]; a template with a
    placeholder is a function of the integer that [format] fills in. *)
Definition suggestions_climate_turn_on : list string :=
  [ "would you like me to turn on the climate control?";
    "should I start the climate system for you?";
    "shall we get the climate going?" ].

Definition suggestions_climate_set_temperature : list (Z -> string) :=
  [ fun temp => "would you like to set the temperature to "
                ++ str_of_Z temp ++ "°C?";
    fun temp => "should I adjust the temperature to your usual "
                ++ str_of_Z temp ++ "°C?";
    fun temp => "shall we set it to your preferred "
                ++ str_of_Z temp ++ "°C?" ].

Definition suggestions_infotainment_play : list string :=
  [ "would you like to listen to some music?";
    "should I start playing your music?";
    "shall we get some tunes going?" ].

Definition suggestions_infotainment_set_volume : list (Z -> string) :=
  [ fun vol => "would you like to set the volume to " ++ str_of_Z vol ++ "%?";
    fun vol => "should I adjust the volume to your usual "
               ++ str_of_Z vol ++ "%?";
    fun vol => "shall we set the volume to " ++ str_of_Z vol ++ "%?" ].

Definition suggestions_seats_heat_on : list string :=
  [ "would you like me to warm up your seat?";
    "should I turn on the seat heating?";
    "shall we get your seat nice and warm?" ].

Definition suggestions_seats_adjust : list (Z -> string) :=
  [ fun pos => "would you like me to adjust your seat to position "
               ++ str_of_Z pos ++ "?";
    fun pos => "should I move your seat to your usual position "
               ++ str_of_Z pos ++ "?";
    fun _ => "shall we adjust the seat to your preferred setting?" ].

Definition break_messages : list string :=
  [ "You've been driving for a while now. Would you like to take a break? Your safety is important!";
    "Time for a quick break! You've been on the road for over 3 minutes. Shall we find a rest stop?";
    "Hey there! Consider taking a short break - you've been driving for quite some time now.";
    "Safety first! You've been driving continuously. Would you like to take a breather?" ].

(** [f"{greeting} {suggestion}"] with both parts drawn at random. *)
Definition phrase (pool : list string) : Rand string :=
  greeting <- random_choice "" morning_greetings ;;
  suggestion <- random_choice "" pool ;;
  ret (greeting ++ " " ++ suggestion).

Definition phrase_with (pool : list (Z -> string)) (arg : Z) : Rand string :=
  greeting <- random_choice "" morning_greetings ;;
  template <- random_choice (fun _ => "") pool ;;
  ret (greeting ++ " " ++ template arg).

(** ** The recommendation generator: [generate_recommendations]

    [current_hour] is [datetime.now().hour]. The result is [None] when no
    rule applies, the first two recommendations otherwise. *)

Definition generate_recommendations (self : AI) (current_hour : Z)
    : Rand (option (list Recommendation)) :=
  let recommendations : list Recommendation := [] in
  let recent_actions := map ev_action (last_n 5 (action_history self)) in
  (* Don't recommend recently performed actions *)
  let recent_action_set := last_n 3 recent_actions in
  let car := car_state self in
  let prefs := driver_preferences self in
  (* Climate recommendations *)
  recommendations <-
    (if negb (climate_on car)
        && negb (mem "climate_turn_on" recent_action_set)
     then
       message <- phrase suggestions_climate_turn_on ;;
       ret (recommendations ++ [mkRec "climate_turn_on" message None])%list
     else ret recommendations) ;;
  (* Temperature adjustment *)
  recommendations <-
    (if climate_on car
        && negb (preferred_temperature prefs =? temperature car)%Z
        && negb (mem "climate_set_temperature" recent_action_set)
     then
       let temp := preferred_temperature prefs in
       message <- phrase_with suggestions_climate_set_temperature temp ;;
       ret (recommendations
              ++ [mkRec "climate_set_temperature" message (Some temp)])%list
     else ret recommendations) ;;
  (* Music recommendations *)
  recommendations <-
    (if negb (infotainment_on car)
        && likes_music prefs
        && negb (mem "infotainment_play" recent_action_set)
     then
       message <- phrase suggestions_infotainment_play ;;
       ret (recommendations ++ [mkRec "infotainment_play" message None])%list
     else ret recommendations) ;;
  (* Volume adjustment *)
  recommendations <-
    (if infotainment_on car
        && negb (preferred_volume prefs =? volume car)%Z
        && negb (mem "infotainment_set_volume" recent_action_set)
     then
       let vol := preferred_volume prefs in
       message <- phrase_with suggestions_infotainment_set_volume vol ;;
       ret (recommendations
              ++ [mkRec "infotainment_set_volume" message (Some vol)])%list
     else ret recommendations) ;;
  (* Lighting recommendations (time-based) *)
  recommendations <-
    (if (18 <=? current_hour)%Z || (current_hour <=? 6)%Z then
       if negb (lights_on car)
          && negb (mem "lights_turn_on" recent_action_set)
       then
         let message := "It's getting dark, would you like me to turn on the ambient lights for a cozy atmosphere?" in
         ret (recommendations ++ [mkRec "lights_turn_on" message None])%list
       else ret recommendations
     else
       if lights_on car
          && negb (mem "lights_turn_off" recent_action_set)
       then
         let message := "It's bright outside, would you like me to turn off the ambient lights to save energy?" in
         ret (recommendations ++ [mkRec "lights_turn_off" message None])%list
       else ret recommendations) ;;
  (* Seat heating recommendations *)
  recommendations <-
    (if negb (seats_heated car)
        && likes_warm_seats prefs
        && negb (mem "seats_heat_on" recent_action_set)
     then
       message <- phrase suggestions_seats_heat_on ;;
       ret (recommendations ++ [mkRec "seats_heat_on" message None])%list
     else ret recommendations) ;;
  (* Seat position adjustment *)
  recommendations <-
    (if negb (preferred_seat_position prefs =? seat_position car)%Z
        && negb (mem "seats_adjust" recent_action_set)
     then
       let pos := preferred_seat_position prefs in
       message <- phrase_with suggestions_seats_adjust pos ;;
       ret (recommendations ++ [mkRec "seats_adjust" message (Some pos)])%list
     else ret recommendations) ;;
  (* Return top 2 recommendations *)
  ret (if nonempty recommendations then Some (firstn 2 recommendations)
       else None).

(** ** Publishing *)

Definition RECOMMENDATIONS_TOPIC : string := "vehicle/recommendations".

(** [send_recommendations]; [now] is [datetime.now().isoformat()]. *)
Definition send_recommendations (self : AI)
    (recommendations : list Recommendation) (now : string) : AI :=
  if negb (nonempty recommendations) then self
  else
    publish (mkPub RECOMMENDATIONS_TOPIC "ai_suggestion" recommendations now)
            self.

(** The guard of the [while] loop of [recommendation_loop]. *)
Definition loop_guard (self : AI) : bool :=
  learning_complete self
  && (recommendations_sent self <? MAX_RECOMMENDATIONS_PER_SESSION)%nat.

(** One pass of the body of [recommendation_loop], the two waits left
    out: generate, and when the result is truthy send it, count it and
    record the time. *)
Definition recommendation_cycle (self : AI) (current_hour : Z)
    (now : string) : Rand AI :=
  recommendations <- generate_recommendations self current_hour ;;
  ret (match recommendations with
       | Some recs =>
           if nonempty recs then
             let self := send_recommendations self recs now in
             mkAI (session_start self) (learning_started self)
                  (learning_complete self) (action_history self)
                  (S (recommendations_sent self)) (Some now)
                  (break_reminder_sent self) (car_state self)
                  (driver_preferences self) (timers self) (published self)
           else self
       | None => self
       end).

(** [send_break_reminder], the callback of the break timer. *)
Definition send_break_reminder (self : AI) (now : string) : Rand AI :=
  if negb (break_reminder_sent self) then
    let self := set_break_reminder_sent true self in
    message <- random_choice "" break_messages ;;
    ret (publish
           (mkPub RECOMMENDATIONS_TOPIC "ai_suggestion"
                  [mkRec "take_break" message None] now)
           self)
  else ret self.

(** Deliveries of the expiry signal, one after the other, each at its
    own time. *)
Fixpoint break_expiries (nows : list string) (self : AI) : Rand AI :=
  match nows with
  | [] => ret self
  | now :: nows' =>
      self <- send_break_reminder self now ;;
      break_expiries nows' self
  end.

(** ** The session coordinator *)

(** [start_learning]: the two timers are started with their delays. *)
Definition start_learning (self : AI) (now : string) : AI :=
  mkAI (Some now) true (learning_complete self) (action_history self)
       (recommendations_sent self) (last_recommendation_time self)
       (break_reminder_sent self) (car_state self) (driver_preferences self)
       (timers self ++ [(LEARNING_PERIOD, CompleteLearning);
                        (BREAK_REMINDER_TIME, SendBreakReminder)])%list
       (published self).

Definition get_default {A : Type} (o : option A) (d : A) : A :=
  match o with Some a => a | None => d end.

(** [handle_vehicle_action]; [now] is [datetime.now().isoformat()]. *)
Definition handle_vehicle_action (self : AI) (action_data : ActionData)
    (now : string) : AI :=
  let action := get_default (ad_action action_data) "" in
  let timestamp := get_default (ad_timestamp action_data) now in
  let value := ad_value action_data in
  (* Add to action history *)
  let self :=
    set_action_history
      (deque_append HISTORY_MAXLEN (action_history self)
                    (mkEvent action timestamp value))
      self in
  (* Update car state *)
  let self :=
    set_car_state (update_car_state (car_state self) action value) self in
  (* Start learning if this is the first action *)
  let self :=
    if negb (learning_started self) then start_learning self now else self in
  (* Learn driver preferences *)
  learn_preferences self.

(** A run of the handler over a sequence of bus messages. *)
Fixpoint handle_all (self : AI) (msgs : list (ActionData * string)) : AI :=
  match msgs with
  | [] => self
  | (action_data, now) :: msgs' =>
      handle_all (handle_vehicle_action self action_data now) msgs'
  end.

(** Car states reachable from the defaults by [update_car_state]. *)
Inductive reachable : CarState -> Prop :=
| reachable_init : reachable initial_car_state
| reachable_step s action value :
    reachable s -> reachable (update_car_state s action value).

(** [complete_learning], the callback of the learning timer; the thread
    it starts runs [recommendation_cycle] while [loop_guard] holds. *)
Definition complete_learning (self : AI) : AI :=
  mkAI (session_start self) (learning_started self) true
       (action_history self) (recommendations_sent self)
       (last_recommendation_time self) (break_reminder_sent self)
       (car_state self) (driver_preferences self) (timers self)
       (published self).

(** What can happen to a session: a bus message, the expiry of one of
    the two timers, a pass of the recommendation loop. *)
Inductive SessionEvent :=
| OnAction (action_data : ActionData) (now : string)
| OnLearningExpiry
| OnBreakExpiry (now : string)
| OnLoopPass (current_hour : Z) (now : string).

Definition session_step (self : AI) (e : SessionEvent) : Rand AI :=
  match e with
  | OnAction action_data now => ret (handle_vehicle_action self action_data now)
  | OnLearningExpiry => ret (complete_learning self)
  | OnBreakExpiry now => send_break_reminder self now
  | OnLoopPass current_hour now =>
      if loop_guard self then recommendation_cycle self current_hour now
      else ret self
  end.

Fixpoint session_run (es : list SessionEvent) (self : AI) : Rand AI :=
  match es with
  | [] => ret self
  | e :: es' =>
      self <- session_step self e ;;
      session_run es' self
  end.

(** The break reminders among the messages handed to the bus. *)
Definition is_break_reminder (m : Publication) : bool :=
  mem "take_break" (map rec_action (pub_recommendations m)).

Definition break_reminders (pubs : list Publication) : list Publication :=
  filter is_break_reminder pubs.

(** What every step of a session preserves: no reminder is on the bus
    while the flag is unset, and never more than one. *)
Definition at_most_one_reminder (self : AI) : Prop :=
  (break_reminder_sent self = false ->
   break_reminders (published self) = [])
  /\ (length (break_reminders (published self)) <= 1)%nat.

(** ** The fields of the car state, for frame properties *)

Inductive Field :=
| F_climate_on | F_temperature | F_infotainment_on | F_volume
| F_lights_on | F_brightness | F_seats_heated | F_seat_position.

Inductive FieldValue := VBool (b : bool) | VInt (z : Z).

Definition get_field (f : Field) (s : CarState) : FieldValue :=
  match f with
  | F_climate_on => VBool (climate_on s)
  | F_temperature => VInt (temperature s)
  | F_infotainment_on => VBool (infotainment_on s)
  | F_volume => VInt (volume s)
  | F_lights_on => VBool (lights_on s)
  | F_brightness => VInt (brightness s)
  | F_seats_heated => VBool (seats_heated s)
  | F_seat_position => VInt (seat_position s)
  end.

Definition climate_actions : list string :=
  [ "climate_turn_on"; "climate_turn_off"; "climate_set_temperature";
    "climate_increase"; "climate_decrease" ].

(** ** The statements of the specification *)

(** Bounds after the clamped actions, as the specification states them of
    a car state [s]. *)
Definition spec_clamped_after_adjust (s : CarState) : Prop :=
  (forall v, 16 <= temperature (update_car_state s "climate_increase" v) <= 30)
  /\ (forall v,
        16 <= temperature (update_car_state s "climate_decrease" v) <= 30)
  /\ (forall v,
        0 <= volume (update_car_state s "infotainment_volume_up" v) <= 100)
  /\ (forall v,
        0 <= volume (update_car_state s "infotainment_volume_down" v) <= 100)
  /\ (forall v, 0 <= brightness (update_car_state s "lights_dim" v) <= 100)
  /\ (forall v,
        0 <= brightness (update_car_state s "lights_brighten" v) <= 100).

(** Car states reached when every directly set temperature and volume is
    within the range of its field. *)
Definition set_within_range (action : string) (value : option Z) : Prop :=
  (action = "climate_set_temperature" -> truthy value = true ->
   16 <= int_of value <= 30)
  /\ (action = "infotainment_set_volume" -> truthy value = true ->
      0 <= int_of value <= 100).

Inductive reachable_within : CarState -> Prop :=
| reachable_within_init : reachable_within initial_car_state
| reachable_within_step s action value :
    reachable_within s -> set_within_range action value ->
    reachable_within (update_car_state s action value).

(** The values the specification averages: those of all history entries
    of the kind with a non-null value. *)
Definition spec_values (kind : string) (history : list ActionEvent) : list Z :=
  flat_map
    (fun act =>
       if ev_action act =? kind then
         match ev_value act with Some v => [v] | None => [] end
       else [])
    history.

Definition total (l : list Z) : Z := fold_right Z.add 0 l.

(** The integer-truncated arithmetic mean, and the mean rounded down. *)
Definition spec_truncated_mean (l : list Z) : Z := Z.quot (total l) (len l).
Definition floor_mean (l : list Z) : Z := total l / len l.

(** A preference field after a recompute, as the specification states it:
    the mean when there are values, the prior value otherwise. *)
Definition spec_learned (mean : list Z -> Z) (vals : list Z) (old new : Z)
    : Prop :=
  (vals <> [] -> new = mean vals) /\ (vals = [] -> new = old).

Definition spec_learn_preferences (mean : list Z -> Z) (self : AI) : Prop :=
  let h := action_history self in
  let p := driver_preferences self in
  let p' := driver_preferences (learn_preferences self) in
  ((length h < 3)%nat -> p' = p)
  /\ ((3 <= length h)%nat ->
      spec_learned mean (spec_values "climate_set_temperature" h)
                   (preferred_temperature p) (preferred_temperature p')
      /\ spec_learned mean (spec_values "infotainment_set_volume" h)
                      (preferred_volume p) (preferred_volume p')
      /\ spec_learned mean (spec_values "seats_adjust" h)
                      (preferred_seat_position p)
                      (preferred_seat_position p')).

(** No history entry of the kind carries the value zero. *)
Definition no_zero_value (kind : string) (history : list ActionEvent) : Prop :=
  forall act, In act history -> ev_action act = kind -> ev_value act <> Some 0.

(** The eligibility rules of the generator in their declaration order,
    each with the action it suggests; [last3] is the suppression set. *)
Definition spec_rules (car : CarState) (prefs : DriverPreferences)
    (last3 : list string) (hour : Z) : list (bool * string) :=
  let night := (18 <=? hour)%Z || (hour <=? 6)%Z in
  [ (negb (climate_on car) && negb (mem "climate_turn_on" last3),
     "climate_turn_on");
    (climate_on car
     && negb (preferred_temperature prefs =? temperature car)%Z
     && negb (mem "climate_set_temperature" last3),
     "climate_set_temperature");
    (negb (infotainment_on car) && likes_music prefs
     && negb (mem "infotainment_play" last3),
     "infotainment_play");
    (infotainment_on car
     && negb (preferred_volume prefs =? volume car)%Z
     && negb (mem "infotainment_set_volume" last3),
     "infotainment_set_volume");
    (if night then negb (lights_on car) && negb (mem "lights_turn_on" last3)
     else lights_on car && negb (mem "lights_turn_off" last3),
     if night then "lights_turn_on" else "lights_turn_off");
    (negb (seats_heated car) && likes_warm_seats prefs
     && negb (mem "seats_heat_on" last3),
     "seats_heat_on");
    (negb (preferred_seat_position prefs =? seat_position car)%Z
     && negb (mem "seats_adjust" last3),
     "seats_adjust") ].

(** The actions of the rules that pass, in declaration order. *)
Definition spec_eligible (car : CarState) (prefs : DriverPreferences)
    (recent_window : list string) (hour : Z) : list string :=
  map snd (filter fst (spec_rules car prefs (last_n 3 recent_window) hour)).

(** The recent window of a session: its last five action names. *)
Definition recent_window (self : AI) : list string :=
  map ev_action (last_n 5 (action_history self)).

(** ** Sample inputs *)

Definition car_after_set_100 : CarState :=
  update_car_state initial_car_state "climate_set_temperature" (Some 100).

Definition set_temperature_event (v : Z) : ActionEvent :=
  mkEvent "climate_set_temperature" "2024-01-01T08:00:00" (Some v).

Definition ai_with_history (h : list ActionEvent) : AI :=
  set_action_history h init.

Definition history_negative : list ActionEvent :=
  [ set_temperature_event (-1); set_temperature_event (-1);
    set_temperature_event (-2) ].

Definition history_20_22_24 : list ActionEvent :=
  [ set_temperature_event 20; set_temperature_event 22;
    set_temperature_event 24 ].

(** A full history: fifty direct sets, with the values 1 to 50. *)
Definition history_50 : list ActionEvent :=
  map (fun n => set_temperature_event (Z.of_nat n)) (seq 1 50).

Definition sample_now : string := "2024-01-01T08:30:00".

Definition sample_draws : list nat := [3; 1; 4]%nat.

Definition history_with_play : list ActionEvent :=
  [ mkEvent "infotainment_play" sample_now None;
    mkEvent "seats_heat_on" sample_now None;
    mkEvent "lights_dim" sample_now None ].

Definition sample_message : ActionData :=
  mkData (Some "lights_dim") None None.

(** A session that learned from a window with [infotainment_play] and
    [seats_heat_on], and the same session once its window holds neither. *)
Definition ai_after_play : AI :=
  learn_preferences (ai_with_history history_with_play).

Definition ai_play_aged_out : AI :=
  set_action_history history_20_22_24 ai_after_play.

(** A session in which no rule passes at noon: the climate is on at the
    preferred temperature, the seat is at the preferred position. *)
Definition ai_nothing_to_suggest : AI :=
  set_car_state (set_climate_on true initial_car_state) init.

(** A session whose break reminder has been sent. *)
Definition ai_reminded : AI :=
  fst (send_break_reminder init sample_now sample_draws).

Definition three_set_messages : list (ActionData * string) :=
  [ (mkData (Some "climate_set_temperature") None (Some 20), sample_now);
    (mkData (Some "climate_set_temperature") None (Some 22), sample_now);
    (mkData (Some "climate_set_temperature") None (Some 24), sample_now) ].

(** ** Connecting to the broker: [setup_mqtt]

    [connect_ok attempt] tells whether the body of the [try] of that
    attempt, [client.connect] then [client.loop_start], completes. The
    result is the trace of calls with the way the method ends. *)







(** ** Bus messages: [on_message]

    The payload either decodes to a JSON object or makes the body of the
    [try] raise, which is caught and printed. *)

Inductive Payload :=
| Undecodable
| Decoded (action_data : ActionData).

Definition ACTIONS_TOPIC : string := "vehicle/actions".

Definition on_message (self : AI) (topic : string) (payload : Payload)
    (now : string) : AI :=
  match payload with
  | Undecodable => self
  | Decoded data =>
      if topic =? ACTIONS_TOPIC then handle_vehicle_action self data now
      else self
  end.

Fixpoint on_messages (self : AI) (msgs : list (string * Payload * string))
    : AI :=
  match msgs with
  | [] => self
  | (topic, payload, now) :: msgs' =>
      on_messages (on_message self topic payload now) msgs'
  end.

(** The object when [handle_vehicle_action] reaches its last statement,
    the call of [learn_preferences]. *)
Definition before_learning (self : AI) (action_data : ActionData)
    (now : string) : AI :=
  let action := get_default (ad_action action_data) "" in
  let timestamp := get_default (ad_timestamp action_data) now in
  let value := ad_value action_data in
  let self :=
    set_action_history
      (deque_append HISTORY_MAXLEN (action_history self)
                    (mkEvent action timestamp value))
      self in
  let self :=
    set_car_state (update_car_state (car_state self) action value) self in
  if negb (learning_started self) then start_learning self now else self.

(** The event the handler records for a payload. *)
Definition event_of (action_data : ActionData) (now : string) : ActionEvent :=
  mkEvent (get_default (ad_action action_data) "")
          (get_default (ad_timestamp action_data) now)
          (ad_value action_data).

(** The events of the messages that reach the handler. *)
Definition accepted (msgs : list (string * Payload * string))
    : list ActionEvent :=
  flat_map
    (fun m =>
       match m with
       | (topic, Decoded data, now) =>
           if topic =? ACTIONS_TOPIC then [event_of data now] else []
       | (_, Undecodable, _) => []
       end)
    msgs.

(** The car state after a sequence of events. *)
Definition apply_events (s : CarState) (events : list ActionEvent) : CarState :=
  fold_left (fun s e => update_car_state s (ev_action e) (ev_value e)) events s.

(** ** Reading a [Counter] *)

(** [c[k]]: the count of a key, 0 when the key is absent. *)
Fixpoint counter_get (k : string) (c : list (string * nat)) : nat :=
  match c with
  | [] => 0%nat
  | (k', n) :: c' => if k' =? k then n else counter_get k c'
  end.

(** ** The rules of the generator as a table

    Each rule of [generate_recommendations] with its test, the action it
    recommends and the value it attaches. *)

Definition rule_table (self : AI) (current_hour : Z)
    : list (bool * (string * option Z)) :=
  let recent_action_set := last_n 3 (recent_window self) in
  let car := car_state self in
  let prefs := driver_preferences self in
  let night := (18 <=? current_hour)%Z || (current_hour <=? 6)%Z in
  [ (negb (climate_on car)
     && negb (mem "climate_turn_on" recent_action_set),
     ("climate_turn_on", None));
    (climate_on car
     && negb (preferred_temperature prefs =? temperature car)%Z
     && negb (mem "climate_set_temperature" recent_action_set),
     ("climate_set_temperature", Some (preferred_temperature prefs)));
    (negb (infotainment_on car) && likes_music prefs
     && negb (mem "infotainment_play" recent_action_set),
     ("infotainment_play", None));
    (infotainment_on car
     && negb (preferred_volume prefs =? volume car)%Z
     && negb (mem "infotainment_set_volume" recent_action_set),
     ("infotainment_set_volume", Some (preferred_volume prefs)));
    (if night then
       negb (lights_on car) && negb (mem "lights_turn_on" recent_action_set)
     else lights_on car && negb (mem "lights_turn_off" recent_action_set),
     (if night then "lights_turn_on" else "lights_turn_off", None));
    (negb (seats_heated car) && likes_warm_seats prefs
     && negb (mem "seats_heat_on" recent_action_set),
     ("seats_heat_on", None));
    (negb (preferred_seat_position prefs =? seat_position car)%Z
     && negb (mem "seats_adjust" recent_action_set),
     ("seats_adjust", Some (preferred_seat_position prefs))) ].

(** What a recommendation asks for: its action and its value. *)
Definition rec_request (r : Recommendation) : string * option Z :=
  (rec_action r, rec_value r).

Definition requests (result : option (list Recommendation))
    : option (list (string * option Z)) :=
  option_map (map rec_request) result.

(** ** Sessions *)

(** The published messages that are not the break reminder. *)
Definition suggestions_published (pubs : list Publication) : list Publication :=
  filter (fun m => negb (is_break_reminder m)) pubs.

Definition is_learning_expiry (e : SessionEvent) : bool :=
  match e with OnLearningExpiry => true | _ => false end.

(** A message as [send_recommendations] and [send_break_reminder] build
    it: the topic, the type and one or two recommendations. *)
Definition well_formed_publication (m : Publication) : Prop :=
  pub_topic m = RECOMMENDATIONS_TOPIC
  /\ pub_type m = "ai_suggestion"
  /\ (1 <= length (pub_recommendations m) <= 2)%nat.

(** What every step of a session preserves about the recommendations. *)
Definition session_invariant (self : AI) : Prop :=
  (recommendations_sent self <= MAX_RECOMMENDATIONS_PER_SESSION)%nat
  /\ length (suggestions_published (published self))
     = recommendations_sent self
  /\ (learning_complete self = false -> recommendations_sent self = 0%nat)
  /\ Forall well_formed_publication (published self).

(** The flags of the phases. *)
Definition flags_le (a b : AI) : Prop :=
  (learning_started a = true -> learning_started b = true)
  /\ (learning_complete a = true -> learning_complete b = true)
  /\ (break_reminder_sent a = true -> break_reminder_sent b = true).

(** The brightness levels the two lighting actions move between. *)
Definition brightness_levels : list Z := [0; 20; 40; 60; 80; 100].

(** ** More sample inputs *)


Definition two_messages : list (ActionData * string) :=
  [ (mkData (Some "climate_set_temperature") None (Some 30), sample_now);
    (mkData (Some "infotainment_play") None None, sample_now) ].

Definition ai_climate_on_cold : AI :=
  set_car_state (set_temperature 18 (set_climate_on true initial_car_state))
                init.

(** What the generator returns for that session in the evening, the
    first of these recommendations (the preferred temperature, 22), and
    what it returns once that recommendation is applied to the car. *)
Definition evening_recommendations : list Recommendation :=
  get_default
    (fst (generate_recommendations ai_climate_on_cold 20 sample_draws)) [].

Definition sample_recommendation : Recommendation :=
  hd (mkRec "" "" None) evening_recommendations.

Definition ai_recommendation_applied : AI :=
  set_car_state
    (update_car_state (car_state ai_climate_on_cold)
                      (rec_action sample_recommendation)
                      (rec_value sample_recommendation))
    ai_climate_on_cold.

Definition later_recommendations : list Recommendation :=
  get_default
    (fst (generate_recommendations ai_recommendation_applied 20 sample_draws))
    [].

Definition events_without_expiry : list SessionEvent :=
  [ OnAction sample_message sample_now;
    OnLoopPass 12 sample_now;
    OnBreakExpiry sample_now;
    OnLoopPass 20 sample_now ].

(** ** Tactics *)

(** Case analysis along an [if]/[elif] chain. *)
Ltac chain :=
  repeat match goal with
         | |- context [if ?c then _ else _] => destruct c eqn:?
         end.

(** * Properties *)

(** ** The car state store *)

Section CarStateStore.

Lemma eqb_neq_false (a b : string) : a <> b -> (a =? b) = false.
Proof. intros H. destruct (String.eqb_spec a b); [contradiction | reflexivity]. Qed.

Lemma truthy_spec (value : option Z) :
  truthy value = true <-> exists v, value = Some v /\ v <> 0.
Proof.
  destruct value as [v|]; simpl.
  - rewrite negb_true_iff, Z.eqb_neq. split.
    + intros H. exists v. auto.
    + intros (w & E & H). congruence.
  - split; [discriminate | intros (w & E & _); discriminate].
Qed.

Lemma update_unknown_action (s : CarState) (action : string)
    (value : option Z) :
  ~ In action known_actions -> update_car_state s action value = s.
Proof.
  intros H. unfold update_car_state.
  repeat match goal with
         | |- context [action =? ?k] =>
             rewrite (eqb_neq_false action k)
               by (intros ->; apply H; simpl; tauto)
         end.
  reflexivity.
Qed.

Lemma update_one_field (s : CarState) (action : string) (value : option Z) :
  exists f, forall g, g <> f ->
    get_field g (update_car_state s action value) = get_field g s.
Proof.
  unfold update_car_state. chain;
    first [ exists F_climate_on; intros [] ?; (reflexivity || congruence)
          | exists F_temperature; intros [] ?; (reflexivity || congruence)
          | exists F_infotainment_on; intros [] ?; (reflexivity || congruence)
          | exists F_volume; intros [] ?; (reflexivity || congruence)
          | exists F_lights_on; intros [] ?; (reflexivity || congruence)
          | exists F_brightness; intros [] ?; (reflexivity || congruence)
          | exists F_seats_heated; intros [] ?; (reflexivity || congruence)
          | exists F_seat_position; intros [] ?; (reflexivity || congruence) ].
Qed.

Lemma update_climate_frame (s : CarState) (action : string)
    (value : option Z) :
  In action climate_actions ->
  forall g, g <> F_climate_on -> g <> F_temperature ->
    get_field g (update_car_state s action value) = get_field g s.
Proof.
  intros H g H1 H2. simpl in H.
  destruct H as [<-|[<-|[<-|[<-|[<-|[]]]]]];
    unfold update_car_state; simpl; chain;
    destruct g; (reflexivity || congruence).
Qed.

(** A direct set with a truthy value stores the value as it is. *)
Lemma update_direct_set (s : CarState) (v : Z) :
  v <> 0 ->
  temperature (update_car_state s "climate_set_temperature" (Some v)) = v
  /\ volume (update_car_state s "infotainment_set_volume" (Some v)) = v
  /\ seat_position (update_car_state s "seats_adjust" (Some v)) = v.
Proof.
  intros H. apply Z.eqb_neq in H.
  unfold update_car_state; simpl. rewrite H. simpl. auto.
Qed.

Lemma brightness_reachable (s : CarState) :
  reachable s -> 0 <= brightness s <= 100.
Proof.
  induction 1 as [|s action value _ IH].
  - simpl. lia.
  - unfold update_car_state. chain; simpl; lia.
Qed.

Lemma within_reachable (s : CarState) :
  reachable_within s ->
  16 <= temperature s <= 30 /\ 0 <= volume s <= 100.
Proof.
  induction 1 as [|s action value _ IH [Ht Hv]].
  - simpl. lia.
  - unfold update_car_state. chain; simpl; try lia;
      match goal with
      | Hc : (action =? _) && truthy value = true |- _ =>
          apply andb_true_iff in Hc as [E T]; apply String.eqb_eq in E
      end;
      [specialize (Ht E T) | specialize (Hv E T)]; lia.
Qed.

Lemma reachable_within_reachable (s : CarState) :
  reachable_within s -> reachable s.
Proof. induction 1; constructor; assumption. Qed.

End CarStateStore.

(** ** The action history *)

Section ActionHistory.

Context {A : Type}.

Lemma deque_append_room (maxlen : nat) (d : list A) (x : A) :
  (length d < maxlen)%nat -> deque_append maxlen d x = (d ++ [x])%list.
Proof.
  intros H. unfold deque_append.
  rewrite length_app, Nat.add_1_r.
  destruct (Nat.ltb_spec maxlen (S (length d))); [lia | reflexivity].
Qed.

Lemma deque_append_full (maxlen : nat) (d : list A) (x : A) :
  (1 <= maxlen)%nat -> length d = maxlen ->
  deque_append maxlen d x = (tl d ++ [x])%list.
Proof.
  intros H1 H. unfold deque_append.
  rewrite length_app, Nat.add_1_r.
  destruct (Nat.ltb_spec maxlen (S (length d))); [| lia].
  destruct d; [simpl in H; lia | reflexivity].
Qed.

Lemma deque_append_length (maxlen : nat) (d : list A) (x : A) :
  (length d <= maxlen)%nat ->
  (length (deque_append maxlen d x) <= maxlen)%nat.
Proof.
  intros H. unfold deque_append.
  rewrite length_app, Nat.add_1_r.
  destruct (Nat.ltb_spec maxlen (S (length d))).
  - destruct d; simpl in *; [lia|]. rewrite length_app. simpl. lia.
  - rewrite length_app. simpl. lia.
Qed.

Lemma deque_append_last (maxlen : nat) (d : list A) (x dflt : A) :
  (1 <= maxlen)%nat -> last (deque_append maxlen d x) dflt = x.
Proof.
  intros H. unfold deque_append.
  rewrite length_app, Nat.add_1_r.
  destruct (Nat.ltb_spec maxlen (S (length d))).
  - destruct d as [|a d]; simpl in *; [lia|]. apply last_last.
  - apply last_last.
Qed.

End ActionHistory.

(** ** What the learner and the handler leave alone *)

Lemma learn_preferences_frame (self : AI) :
  learn_preferences self
  = set_driver_preferences (driver_preferences (learn_preferences self)) self.
Proof.
  unfold learn_preferences.
  destruct (length (action_history self) <? 3)%nat; [|reflexivity].
  destruct self; reflexivity.
Qed.

Lemma learn_preferences_fields (self : AI) :
  car_state (learn_preferences self) = car_state self
  /\ action_history (learn_preferences self) = action_history self
  /\ break_reminder_sent (learn_preferences self) = break_reminder_sent self
  /\ published (learn_preferences self) = published self.
Proof. rewrite learn_preferences_frame. simpl. auto. Qed.

Lemma handle_vehicle_action_fields (self : AI) (action_data : ActionData)
    (now : string) :
  let action := get_default (ad_action action_data) "" in
  let timestamp := get_default (ad_timestamp action_data) now in
  let value := ad_value action_data in
  car_state (handle_vehicle_action self action_data now)
  = update_car_state (car_state self) action value
  /\ action_history (handle_vehicle_action self action_data now)
     = deque_append HISTORY_MAXLEN (action_history self)
                    (mkEvent action timestamp value)
  /\ break_reminder_sent (handle_vehicle_action self action_data now)
     = break_reminder_sent self
  /\ published (handle_vehicle_action self action_data now) = published self.
Proof.
  intros action timestamp value. unfold handle_vehicle_action.
  fold action timestamp value.
  match goal with |- context [learn_preferences ?x] =>
    destruct (learn_preferences_fields x) as (-> & -> & -> & ->) end.
  cbn [learning_started set_car_state set_action_history].
  destruct (learning_started self);
    unfold start_learning, set_car_state, set_action_history;
    cbn [negb car_state action_history break_reminder_sent published]; auto.
Qed.

Lemma handle_all_history_length (msgs : list (ActionData * string)) :
  forall self,
    (length (action_history self) <= HISTORY_MAXLEN)%nat ->
    (length (action_history (handle_all self msgs)) <= HISTORY_MAXLEN)%nat.
Proof.
  induction msgs as [|[action_data now] msgs IH]; intros self H; simpl.
  - exact H.
  - apply IH.
    destruct (handle_vehicle_action_fields self action_data now)
      as (_ & -> & _).
    apply deque_append_length. exact H.
Qed.

Lemma deque_append_snoc {A : Type} (maxlen : nat) (d : list A) (x : A) :
  (1 <= maxlen)%nat ->
  exists older, deque_append maxlen d x = (older ++ [x])%list.
Proof.
  intros H. unfold deque_append.
  rewrite length_app, Nat.add_1_r.
  destruct (Nat.ltb_spec maxlen (S (length d))).
  - destruct d as [|a d]; simpl in *; [lia|]. exists d. reflexivity.
  - exists d. reflexivity.
Qed.

(** ** Bounds after the clamped actions *)

(** C1, as stated, fails: a direct set stores 100 unclamped, and the
    decrease that follows clamps from below only, leaving 99. *)
Lemma decrease_after_set_100_out_of_range :
  reachable car_after_set_100
  /\ temperature (update_car_state car_after_set_100 "climate_decrease" None)
     = 99
  /\ ~ spec_clamped_after_adjust car_after_set_100.
Proof.
  split; [|split].
  - apply reachable_step, reachable_init.
  - reflexivity.
  - intros (_ & H & _). specialize (H None). vm_compute in H.
    destruct H as [_ H]. apply H. reflexivity.
Qed.

(** C1, amended: in every reachable car state an increase leaves the
    temperature at most 30 and a decrease at least 16, a volume-up leaves
    the volume at most 100 and a volume-down at least 0; both bounds hold
    after the step when the field was within its range before it; the
    brightness is within [0,100] after a dim or a brighten. In the states
    reached with every directly set temperature and volume within its
    range, all the bounds of the claim hold. *)
Theorem adjust_bounds (s : CarState) :
  (reachable s ->
   (forall v, temperature (update_car_state s "climate_increase" v) <= 30)
   /\ (forall v, 16 <= temperature (update_car_state s "climate_decrease" v))
   /\ (forall v, volume (update_car_state s "infotainment_volume_up" v) <= 100)
   /\ (forall v, 0 <= volume (update_car_state s "infotainment_volume_down" v))
   /\ (16 <= temperature s <= 30 -> forall v,
         16 <= temperature (update_car_state s "climate_increase" v) <= 30
         /\ 16 <= temperature (update_car_state s "climate_decrease" v) <= 30)
   /\ (0 <= volume s <= 100 -> forall v,
         0 <= volume (update_car_state s "infotainment_volume_up" v) <= 100
         /\ 0 <= volume (update_car_state s "infotainment_volume_down" v)
            <= 100)
   /\ (forall v,
         0 <= brightness (update_car_state s "lights_dim" v) <= 100
         /\ 0 <= brightness (update_car_state s "lights_brighten" v) <= 100))
  /\ (reachable_within s -> spec_clamped_after_adjust s).
Proof.
  split.
  - intros H. apply brightness_reachable in H.
    unfold update_car_state; simpl.
    repeat split; intros; simpl; lia.
  - intros H.
    pose proof (brightness_reachable s (reachable_within_reachable s H)).
    apply within_reachable in H.
    unfold spec_clamped_after_adjust, update_car_state; simpl.
    repeat split; intros; simpl; lia.
Qed.

Lemma adjust_bounds_witness :
  temperature (update_car_state car_after_set_100 "climate_increase" None)
  <= 30
  /\ spec_clamped_after_adjust initial_car_state.
Proof.
  split.
  - exact (proj1 (proj1 (adjust_bounds car_after_set_100)
                          (reachable_step _ _ _ reachable_init)) None).
  - apply (proj2 (adjust_bounds initial_car_state)).
    apply reachable_within_init.
Defined.

(** ** Direct sets *)

(** C4: the code at the value 0. A direct set whose value is 0 is
    skipped by the truthiness test: the state is returned as it was, so
    the volume of the defaults stays 50 where the claim has it set to 0. *)
Theorem direct_set_zero_skipped (s : CarState) :
  update_car_state s "climate_set_temperature" (Some 0) = s
  /\ update_car_state s "infotainment_set_volume" (Some 0) = s
  /\ update_car_state s "seats_adjust" (Some 0) = s
  /\ volume (update_car_state initial_car_state "infotainment_set_volume"
                              (Some 0)) = 50.
Proof. repeat split. Qed.

(** ** Unknown actions *)

(** C8: an event whose action name is none of the 17 known names leaves
    the car state as it was, and the event is the newest entry of the
    history after the handler has run. *)
Theorem unknown_action_recorded_only (self : AI) (action_data : ActionData)
    (now : string) :
  let action := get_default (ad_action action_data) "" in
  let event := mkEvent action (get_default (ad_timestamp action_data) now)
                       (ad_value action_data) in
  ~ In action known_actions ->
  length known_actions = 17%nat
  /\ car_state (handle_vehicle_action self action_data now) = car_state self
  /\ action_history (handle_vehicle_action self action_data now)
     = deque_append HISTORY_MAXLEN (action_history self) event
  /\ exists older,
       action_history (handle_vehicle_action self action_data now)
       = (older ++ [event])%list.
Proof.
  intros action event H.
  destruct (handle_vehicle_action_fields self action_data now)
    as (Hc & Hh & _).
  split; [reflexivity|]. split; [|split].
  - rewrite Hc. apply update_unknown_action. exact H.
  - exact Hh.
  - rewrite Hh. apply deque_append_snoc. unfold HISTORY_MAXLEN. lia.
Qed.

Lemma unknown_action_recorded_only_witness :
  car_state
    (handle_vehicle_action init (mkData (Some "windows_open") None (Some 3))
                           "2024-01-01T08:00:00")
  = car_state init.
Proof.
  apply (unknown_action_recorded_only
           init (mkData (Some "windows_open") None (Some 3))
           "2024-01-01T08:00:00").
  simpl.
  intros H.
  repeat (destruct H as [H|H]; [discriminate H|]).
  exact H.
Defined.

(** ** The bound on the history *)

(** C9: after any sequence of events the history holds at most 50
    entries; an append to a history of 50 entries drops the oldest one and
    keeps the others in their order, an append to a shorter history drops
    nothing. *)
Theorem history_bounded_fifo (msgs : list (ActionData * string)) :
  (length (action_history (handle_all init msgs)) <= 50)%nat
  /\ forall (self : AI) (action_data : ActionData) (now : string),
       let event := mkEvent (get_default (ad_action action_data) "")
                            (get_default (ad_timestamp action_data) now)
                            (ad_value action_data) in
       (length (action_history self) = 50%nat ->
        action_history (handle_vehicle_action self action_data now)
        = (tl (action_history self) ++ [event])%list)
       /\ ((length (action_history self) < 50)%nat ->
           action_history (handle_vehicle_action self action_data now)
           = (action_history self ++ [event])%list).
Proof.
  split.
  - apply (handle_all_history_length msgs init). simpl. lia.
  - intros self action_data now event.
    destruct (handle_vehicle_action_fields self action_data now)
      as (_ & Hh & _).
    fold event in Hh. rewrite Hh. split; intros H.
    + apply deque_append_full; [unfold HISTORY_MAXLEN; lia | exact H].
    + apply deque_append_room. exact H.
Qed.

Lemma history_bounded_fifo_witness :
  action_history
    (handle_vehicle_action (ai_with_history history_50) sample_message
                           sample_now)
  = (tl history_50 ++ [mkEvent "lights_dim" sample_now None])%list.
Proof.
  apply (proj1 (proj2 (history_bounded_fifo [])
                      (ai_with_history history_50) sample_message sample_now)).
  reflexivity.
Defined.

(** ** The frame of a transition *)

(** C10: one call of [update_car_state] changes at most one of the eight
    fields of the car state; a climate action changes neither the
    infotainment, nor the lighting, nor the seat fields. *)
Theorem update_car_state_frame (s : CarState) (action : string)
    (value : option Z) :
  (exists f, forall g, g <> f ->
     get_field g (update_car_state s action value) = get_field g s)
  /\ (In action climate_actions ->
      let s' := update_car_state s action value in
      infotainment_on s' = infotainment_on s
      /\ volume s' = volume s
      /\ lights_on s' = lights_on s
      /\ brightness s' = brightness s
      /\ seats_heated s' = seats_heated s
      /\ seat_position s' = seat_position s).
Proof.
  split.
  - apply update_one_field.
  - intros H s'.
    assert (F : forall g, g <> F_climate_on -> g <> F_temperature ->
                get_field g s' = get_field g s)
      by (apply update_climate_frame; exact H).
    pose proof (F F_infotainment_on) as H1.
    pose proof (F F_volume) as H2.
    pose proof (F F_lights_on) as H3.
    pose proof (F F_brightness) as H4.
    pose proof (F F_seats_heated) as H5.
    pose proof (F F_seat_position) as H6.
    simpl in *.
    repeat split;
      match goal with
      | Hx : _ -> _ -> ?c ?a = ?c ?b |- ?a = ?b =>
          assert (E : c a = c b) by (apply Hx; discriminate);
          injection E; trivial
      end.
Qed.

Lemma update_car_state_frame_witness :
  let s' := update_car_state initial_car_state "climate_increase" None in
  infotainment_on s' = false
  /\ volume s' = 50
  /\ lights_on s' = false
  /\ brightness s' = 80
  /\ seats_heated s' = false
  /\ seat_position s' = 5.
Proof.
  apply (proj2 (update_car_state_frame initial_car_state "climate_increase"
                                       None)).
  simpl. tauto.
Defined.

(** ** The preference learner *)

Section PreferenceLearner.

Lemma py_sum_total (l : list Z) : py_sum l = total l.
Proof.
  unfold py_sum, total.
  rewrite <- fold_left_rev_right.
  rewrite <- (rev_involutive l) at 2.
  generalize (rev l) as r. intros r.
  assert (G : forall a, fold_right (fun y x => x + y) a r
                        = fold_right Z.add 0 r + a).
  { induction r as [|x r IH]; intros a; simpl; [lia | rewrite IH; lia]. }
  rewrite G. clear G.
  induction r as [|x r IH]; simpl; [reflexivity|].
  rewrite fold_right_app. simpl.
  assert (G : forall (l0 : list Z) a, fold_right Z.add a l0
                                 = fold_right Z.add 0 l0 + a).
  { induction l0 as [|y l0 IH0]; intros a; simpl; [lia | rewrite IH0; lia]. }
  rewrite (G (rev r)). lia.
Qed.

Lemma nonempty_true {A : Type} (l : list A) : nonempty l = true <-> l <> [].
Proof. destruct l; simpl; split; congruence. Qed.

Lemma nonempty_false {A : Type} (l : list A) : nonempty l = false <-> l = [].
Proof. destruct l; simpl; split; congruence. Qed.

Lemma mem_In (x : string) (l : list string) : mem x l = true <-> In x l.
Proof.
  unfold mem. rewrite existsb_exists. split.
  - intros (y & Hy & E). apply String.eqb_eq in E. subst. exact Hy.
  - intros H. exists x. split; [exact H | apply String.eqb_refl].
Qed.

(** Without entries of value zero, the values the code averages are
    those of the entries with a non-null value. *)
Lemma values_of_set_actions (kind : string) (history : list ActionEvent) :
  no_zero_value kind history ->
  values_of (set_actions kind history) = spec_values kind history.
Proof.
  unfold values_of, set_actions, spec_values, no_zero_value.
  induction history as [|act h IH]; intros Hz; simpl; [reflexivity|].
  assert (IH' : map (fun a => int_of (ev_value a))
                  (filter (fun a => (ev_action a =? kind)
                                    && truthy (ev_value a)) h)
                = flat_map (fun a => if ev_action a =? kind
                                     then match ev_value a with
                                          | Some v => [v]
                                          | None => []
                                          end
                                     else []) h).
  { apply IH. intros a Ha. apply Hz. right. exact Ha. }
  destruct (String.eqb_spec (ev_action act) kind) as [E|E]; simpl.
  - destruct (ev_value act) as [v|] eqn:Ev; simpl.
    + destruct (Z.eqb_spec v 0) as [->|Hv]; simpl.
      * exfalso. apply (Hz act); [left; reflexivity | exact E | exact Ev].
      * rewrite IH', Ev. reflexivity.
    + exact IH'.
  - exact IH'.
Qed.

(** The fields of the profile after a recompute on a history of at
    least three entries. *)
Lemma learned_fields (self : AI) :
  (3 <= length (action_history self))%nat ->
  let h := action_history self in
  let p := driver_preferences self in
  let p' := driver_preferences (learn_preferences self) in
  let mean kind :=
    py_sum (values_of (set_actions kind h))
    / len (values_of (set_actions kind h)) in
  preferred_temperature p'
  = (if nonempty (set_actions "climate_set_temperature" h)
     then mean "climate_set_temperature" else preferred_temperature p)
  /\ preferred_volume p'
     = (if nonempty (set_actions "infotainment_set_volume" h)
        then mean "infotainment_set_volume" else preferred_volume p)
  /\ preferred_seat_position p'
     = (if nonempty (set_actions "seats_adjust" h)
        then mean "seats_adjust" else preferred_seat_position p)
  /\ likes_music p'
     = (mem "infotainment_play" (map ev_action h) || likes_music p)
  /\ likes_warm_seats p'
     = (mem "seats_heat_on" (map ev_action h) || likes_warm_seats p).
Proof.
  intros H h p p' mean. subst p' mean. unfold learn_preferences.
  fold h. fold p.
  destruct (Nat.ltb_spec (length h) 3) as [H'|_]; [unfold h in H'; lia|].
  cbv zeta.
  destruct (nonempty (set_actions "climate_set_temperature" h)),
           (nonempty (set_actions "infotainment_set_volume" h)),
           (nonempty (set_actions "seats_adjust" h)),
           (mem "infotainment_play" (map ev_action h)),
           (mem "seats_heat_on" (map ev_action h));
    repeat split.
Qed.

Lemma learn_preferences_short (self : AI) :
  (length (action_history self) < 3)%nat -> learn_preferences self = self.
Proof.
  intros H. unfold learn_preferences.
  destruct (Nat.ltb_spec (length (action_history self)) 3);
    [reflexivity | lia].
Qed.

Lemma learned_mean (kind : string) (h : list ActionEvent) (old new : Z) :
  no_zero_value kind h ->
  new = (if nonempty (set_actions kind h)
         then py_sum (values_of (set_actions kind h))
              / len (values_of (set_actions kind h))
         else old) ->
  spec_learned floor_mean (spec_values kind h) old new
  /\ (0 <= total (spec_values kind h) ->
      spec_learned spec_truncated_mean (spec_values kind h) old new).
Proof.
  intros Hz ->.
  pose proof (values_of_set_actions kind h Hz) as E.
  assert (N : nonempty (set_actions kind h) = nonempty (spec_values kind h)).
  { rewrite <- E. unfold values_of.
    destruct (set_actions kind h); reflexivity. }
  rewrite N, E, py_sum_total.
  assert (F : spec_learned floor_mean (spec_values kind h) old
                (if nonempty (spec_values kind h)
                 then total (spec_values kind h) / len (spec_values kind h)
                 else old)).
  { split; intros Hv.
    - apply nonempty_true in Hv. rewrite Hv. reflexivity.
    - apply nonempty_false in Hv. rewrite Hv. reflexivity. }
  split; [exact F|].
  intros Hpos. destruct F as [F1 F2]. split; [|exact F2].
  intros Hv. rewrite (F1 Hv). unfold floor_mean, spec_truncated_mean.
  symmetry. apply Z.quot_div_nonneg; [exact Hpos|].
  unfold len. destruct (spec_values kind h); [congruence | simpl; lia].
Qed.

Lemma learn_keeps_likes (self : AI) :
  (likes_music (driver_preferences self) = true ->
   likes_music (driver_preferences (learn_preferences self)) = true)
  /\ (likes_warm_seats (driver_preferences self) = true ->
      likes_warm_seats (driver_preferences (learn_preferences self)) = true).
Proof.
  destruct (Nat.ltb_spec (length (action_history self)) 3) as [H|H].
  - rewrite (learn_preferences_short self H). auto.
  - destruct (learned_fields self H) as (_ & _ & _ & -> & ->).
    split; intros ->; apply orb_true_r.
Qed.

Lemma handle_keeps_likes (self : AI) (action_data : ActionData)
    (now : string) :
  (likes_music (driver_preferences self) = true ->
   likes_music
     (driver_preferences (handle_vehicle_action self action_data now))
   = true)
  /\ (likes_warm_seats (driver_preferences self) = true ->
      likes_warm_seats
        (driver_preferences (handle_vehicle_action self action_data now))
      = true).
Proof.
  unfold handle_vehicle_action.
  split; intros H; apply learn_keeps_likes;
    cbn [learning_started set_car_state set_action_history];
    destruct (learning_started self); exact H.
Qed.

Lemma handle_all_keeps_likes (msgs : list (ActionData * string)) :
  forall self,
    (likes_music (driver_preferences self) = true ->
     likes_music (driver_preferences (handle_all self msgs)) = true)
    /\ (likes_warm_seats (driver_preferences self) = true ->
        likes_warm_seats (driver_preferences (handle_all self msgs)) = true).
Proof.
  induction msgs as [|[action_data now] msgs IH]; intros self; simpl.
  - auto.
  - destruct (IH (handle_vehicle_action self action_data now)) as [I1 I2].
    destruct (handle_keeps_likes self action_data now) as [K1 K2].
    auto.
Qed.

End PreferenceLearner.

(** C2, as stated, fails: on three direct sets of -1, -1 and -2 the
    learner stores -2, the mean rounded down, where the integer-truncated
    mean is -1. *)
Lemma negative_mean_rounds_down :
  preferred_temperature
    (driver_preferences (learn_preferences (ai_with_history history_negative)))
  = -2
  /\ spec_truncated_mean (spec_values "climate_set_temperature"
                                      history_negative) = -1
  /\ ~ spec_learn_preferences spec_truncated_mean
         (ai_with_history history_negative).
Proof.
  split; [reflexivity|]. split; [reflexivity|].
  intros [_ H].
  assert (L : (3 <= length (action_history (ai_with_history history_negative)))%nat)
    by (simpl; lia).
  destruct (H L) as [[H1 _] _].
  assert (N : spec_values "climate_set_temperature"
                (action_history (ai_with_history history_negative)) <> [])
    by discriminate.
  specialize (H1 N). vm_compute in H1. discriminate H1.
Qed.

(** C2, amended: with fewer than 3 entries in the history the profile is
    unchanged; with at least 3, for each of the three set-action kinds
    whose entries carry no value 0, the preferred field is the mean,
    rounded down, of the non-null values of that kind when there is one,
    and its prior value when there is none; the mean rounded down is the
    integer-truncated mean when the sum of the values is not negative
    (20, 22, 24 give 22). *)
Theorem learn_preferences_floor_mean (self : AI) :
  let h := action_history self in
  let p := driver_preferences self in
  let p' := driver_preferences (learn_preferences self) in
  let learned kind old new :=
    no_zero_value kind h ->
    spec_learned floor_mean (spec_values kind h) old new
    /\ (0 <= total (spec_values kind h) ->
        spec_learned spec_truncated_mean (spec_values kind h) old new) in
  ((length h < 3)%nat -> p' = p)
  /\ ((3 <= length h)%nat ->
      learned "climate_set_temperature"
              (preferred_temperature p) (preferred_temperature p')
      /\ learned "infotainment_set_volume"
                 (preferred_volume p) (preferred_volume p')
      /\ learned "seats_adjust"
                 (preferred_seat_position p) (preferred_seat_position p')).
Proof.
  intros h p p' learned. split.
  - intros H. unfold p'. rewrite (learn_preferences_short self H). reflexivity.
  - intros H. destruct (learned_fields self H) as (Ht & Hv & Hs & _).
    unfold learned.
    split; [|split]; intros Hz; apply learned_mean; assumption.
Qed.

Lemma learn_preferences_floor_mean_witness :
  preferred_temperature
    (driver_preferences (learn_preferences (ai_with_history history_20_22_24)))
  = 22.
Proof.
  assert (L : (3 <= length (action_history
                              (ai_with_history history_20_22_24)))%nat)
    by (simpl; lia).
  assert (Z0 : no_zero_value "climate_set_temperature"
                 (action_history (ai_with_history history_20_22_24))).
  { intros act [<-|[<-|[<-|[]]]] _; discriminate. }
  assert (P : 0 <= total (spec_values "climate_set_temperature"
                            (action_history
                               (ai_with_history history_20_22_24))))
    by (vm_compute; discriminate).
  assert (N : spec_values "climate_set_temperature"
                (action_history (ai_with_history history_20_22_24)) <> [])
    by discriminate.
  exact (proj1
           (proj2
              (proj1
                 (proj2 (learn_preferences_floor_mean
                           (ai_with_history history_20_22_24)) L) Z0) P) N).
Defined.

(** Scenario A through the handler: three direct sets of 20, 22, 24. *)
Example scenario_three_sets :
  preferred_temperature (driver_preferences (handle_all init three_set_messages))
  = 22.
Proof. reflexivity. Qed.

(** ** The behaviour flags *)

(** C6: a recompute on a window of at least 3 entries that holds
    [infotainment_play] sets [likes_music]; a recompute on a window
    without it leaves the flag as it was; once the flag is true it is
    true after every later recompute and after every later event. The
    same holds of [likes_warm_seats] and [seats_heat_on]. *)
Theorem likes_flags_sticky (self : AI) :
  let actions := map ev_action (action_history self) in
  let p := driver_preferences self in
  let p' := driver_preferences (learn_preferences self) in
  (((3 <= length (action_history self))%nat ->
    In "infotainment_play" actions -> likes_music p' = true)
   /\ (~ In "infotainment_play" actions -> likes_music p' = likes_music p)
   /\ (likes_music p = true ->
       likes_music p' = true
       /\ forall msgs,
            likes_music (driver_preferences (handle_all self msgs)) = true))
  /\ (((3 <= length (action_history self))%nat ->
       In "seats_heat_on" actions -> likes_warm_seats p' = true)
      /\ (~ In "seats_heat_on" actions ->
          likes_warm_seats p' = likes_warm_seats p)
      /\ (likes_warm_seats p = true ->
          likes_warm_seats p' = true
          /\ forall msgs,
               likes_warm_seats (driver_preferences (handle_all self msgs))
               = true)).
Proof.
  intros actions p p'.
  assert (U : forall name,
            ~ In name actions -> mem name actions = false).
  { intros name H. destruct (mem name actions) eqn:E; [|reflexivity].
    apply mem_In in E. contradiction. }
  destruct (learn_keeps_likes self) as [K1 K2].
  split; (split; [|split]).
  - intros H Hin. destruct (learned_fields self H) as (_ & _ & _ & E & _).
    unfold p'. rewrite E. apply mem_In in Hin. fold actions.
    rewrite Hin. reflexivity.
  - intros Hn. unfold p'.
    destruct (Nat.ltb_spec (length (action_history self)) 3) as [H|H].
    + rewrite (learn_preferences_short self H). reflexivity.
    + destruct (learned_fields self H) as (_ & _ & _ & E & _).
      rewrite E. fold actions. rewrite (U _ Hn). reflexivity.
  - intros H. split; [exact (K1 H)|].
    intros msgs. apply (handle_all_keeps_likes msgs self). exact H.
  - intros H Hin. destruct (learned_fields self H) as (_ & _ & _ & _ & E).
    unfold p'. rewrite E. apply mem_In in Hin. fold actions.
    rewrite Hin. reflexivity.
  - intros Hn. unfold p'.
    destruct (Nat.ltb_spec (length (action_history self)) 3) as [H|H].
    + rewrite (learn_preferences_short self H). reflexivity.
    + destruct (learned_fields self H) as (_ & _ & _ & _ & E).
      rewrite E. fold actions. rewrite (U _ Hn). reflexivity.
  - intros H. split; [exact (K2 H)|].
    intros msgs. apply (handle_all_keeps_likes msgs self). exact H.
Qed.

Lemma likes_flags_sticky_witness :
  likes_music (driver_preferences ai_after_play) = true
  /\ likes_music (driver_preferences (learn_preferences ai_play_aged_out))
     = true
  /\ likes_warm_seats (driver_preferences (learn_preferences ai_play_aged_out))
     = true.
Proof.
  split; [|split].
  - apply (proj1 (proj1 (likes_flags_sticky
                           (ai_with_history history_with_play)))).
    + simpl. lia.
    + simpl. tauto.
  - apply (proj2 (proj2 (proj1 (likes_flags_sticky ai_play_aged_out)))).
    reflexivity.
  - apply (proj2 (proj2 (proj2 (likes_flags_sticky ai_play_aged_out)))).
    reflexivity.
Defined.

(** ** The recommendation generator *)

Section Generator.

Lemma bind_ret {A B : Type} (a : A) (k : A -> Rand B) (g : list nat) :
  bind (ret a) k g = k a g.
Proof. reflexivity. Qed.

Lemma if_ret {A : Type} (c : bool) (x y : A) :
  (if c then ret x else ret y) = ret (if c then x else y).
Proof. destruct c; reflexivity. Qed.

(** A rule that draws its message: the continuation runs on the list
    extended, or not, by the recommendation of the rule. *)
Lemma bind_rule {B : Type} (c : bool) (ph : Rand string) (a : string)
    (v : option Z) (recs : list Recommendation)
    (k : list Recommendation -> Rand B) (g : list nat) :
  exists m g',
    bind (if c then
            bind ph (fun message => ret (recs ++ [mkRec a message v])%list)
          else ret recs) k g
    = k (recs ++ (if c then [mkRec a m v] else []))%list g'.
Proof.
  destruct c.
  - exists (fst (ph g)), (snd (ph g)). unfold bind, ret.
    destruct (ph g); reflexivity.
  - exists "", g. rewrite bind_ret, app_nil_r. reflexivity.
Qed.

Lemma last_n_map {A B : Type} (f : A -> B) (n : nat) (l : list A) :
  last_n n (map f l) = map f (last_n n l).
Proof. unfold last_n. rewrite length_map, skipn_map. reflexivity. Qed.

Lemma last_n_last_n {A : Type} (n m : nat) (l : list A) :
  (n <= m)%nat -> last_n n (last_n m l) = last_n n l.
Proof.
  intros H. unfold last_n. rewrite skipn_skipn, length_skipn.
  f_equal. lia.
Qed.

Variables (self : AI) (hour : Z).

Let car := car_state self.
Let prefs := driver_preferences self.
Let eligible := spec_eligible car prefs (recent_window self) hour.

(** The generator collects, in order, the recommendations of the rules
    that pass, and returns the first two of them. *)
Lemma generate_recommendations_collects (g : list nat) :
  exists recs,
    fst (generate_recommendations self hour g)
    = (if nonempty recs then Some (firstn 2 recs) else None)
    /\ map rec_action recs = eligible.
Proof.
  unfold generate_recommendations. cbv zeta.
  repeat match goal with
         | |- context [bind (if ?c then
                               bind ?ph (fun message =>
                                 ret (?recs ++ [mkRec ?a message ?v])%list)
                             else ret ?recs) ?k ?g] =>
             destruct (bind_rule c ph a v recs k g) as (? & ? & ->)
         | |- context [if ?c then ret ?x else ret ?y] =>
             rewrite (if_ret c x y)
         | |- context [bind (ret ?x) ?k ?g] =>
             rewrite (bind_ret x k g)
         end.
  eexists. split; [reflexivity|].
  subst eligible car prefs.
  unfold spec_eligible, spec_rules, recent_window. cbv zeta.
  destruct ((18 <=? hour)%Z || (hour <=? 6)%Z);
    cbn [filter map fst snd app rec_action];
    repeat (match goal with
            | |- context [if ?c then _ else _] => destruct c
            end; cbn [filter map fst snd app rec_action]);
    reflexivity.
Qed.

Lemma spec_eligible_not_recent (a : string) :
  In a eligible -> mem a (last_n 3 (recent_window self)) = false.
Proof.
  subst eligible. unfold spec_eligible, spec_rules. cbv zeta.
  intros H. apply in_map_iff in H as ((c & a') & E & H).
  apply filter_In in H as [H Hc]. cbn [fst snd] in *. subst a'.
  destruct ((18 <=? hour)%Z || (hour <=? 6)%Z);
    cbn [In] in H;
    repeat (destruct H as [H|H]; [injection H as <- <-|]);
    try contradiction;
    repeat (apply andb_true_iff in Hc as [Hc ?]);
    repeat match goal with
           | Hn : negb (mem _ _) = true |- _ => apply negb_true_iff in Hn
           end;
    assumption.
Qed.

Lemma spec_eligible_no_break : ~ In "take_break" eligible.
Proof.
  subst eligible. unfold spec_eligible, spec_rules. cbv zeta.
  intros H. apply in_map_iff in H as ((c & a') & E & H).
  apply filter_In in H as [H _]. cbn [fst snd] in *. subst a'.
  destruct ((18 <=? hour)%Z || (hour <=? 6)%Z);
    cbn [In] in H;
    repeat (destruct H as [H|H]; [discriminate H|]);
    contradiction.
Qed.

Lemma generate_recommendations_result (g : list nat) :
  match fst (generate_recommendations self hour g) with
  | Some recs =>
      eligible <> [] /\ recs <> []
      /\ map rec_action recs = firstn 2 eligible
  | None => eligible = []
  end.
Proof.
  destruct (generate_recommendations_collects g) as (recs & -> & E).
  destruct recs as [|r recs]; simpl.
  - symmetry. exact E.
  - rewrite <- E. split; [discriminate|]. split; [discriminate|].
    destruct recs; reflexivity.
Qed.

End Generator.

Lemma In_firstn {A : Type} (n : nat) (l : list A) (x : A) :
  In x (firstn n l) -> In x l.
Proof.
  intros H. rewrite <- (firstn_skipn n l). apply in_or_app. left. exact H.
Qed.

(** C3: the generator returns either nothing, exactly when no rule is
    eligible, or a list of one or two recommendations whose actions are
    those of the first two eligible rules in declaration order; when no
    rule is eligible a pass of the loop publishes nothing. *)
Theorem generate_first_two_eligible (self : AI) (hour : Z) (now : string)
    (g : list nat) :
  let eligible :=
    spec_eligible (car_state self) (driver_preferences self)
                  (recent_window self) hour in
  match fst (generate_recommendations self hour g) with
  | Some recs =>
      eligible <> [] /\ recs <> [] /\ (length recs <= 2)%nat
      /\ map rec_action recs = firstn 2 eligible
  | None => eligible = []
  end
  /\ (eligible = [] ->
      fst (generate_recommendations self hour g) = None
      /\ fst (recommendation_cycle self hour now g) = self).
Proof.
  intros eligible.
  pose proof (generate_recommendations_result self hour g) as R.
  split.
  - destruct (fst (generate_recommendations self hour g)) as [recs|].
    + destruct R as (R1 & R2 & R3). repeat split; try assumption.
      rewrite <- (length_map rec_action), R3. apply firstn_le_length.
    + exact R.
  - intros E.
    assert (N : fst (generate_recommendations self hour g) = None).
    { destruct (fst (generate_recommendations self hour g)) as [recs|];
        [|reflexivity].
      destruct R as (R1 & _). contradiction. }
    split; [exact N|].
    unfold recommendation_cycle, bind.
    destruct (generate_recommendations self hour g) as [r g'].
    simpl in N. subst r. reflexivity.
Qed.

Lemma generate_first_two_eligible_witness :
  fst (recommendation_cycle ai_nothing_to_suggest 12 sample_now sample_draws)
  = ai_nothing_to_suggest.
Proof.
  apply (proj2 (generate_first_two_eligible ai_nothing_to_suggest 12
                                            sample_now sample_draws)).
  reflexivity.
Defined.

(** The defaults with an empty history: the climate rule comes first. *)
Example scenario_climate_first :
  option_map (map rec_action) (fst (generate_recommendations init 12 sample_draws))
  = Some ["climate_turn_on"].
Proof. reflexivity. Qed.

(** C5: the suppression set, the last 3 of the last-5 window, holds the
    last 3 recorded action names, and no returned recommendation has its
    action among them. *)
Theorem no_recently_performed (self : AI) (hour : Z) (g : list nat)
    (recs : list Recommendation) :
  fst (generate_recommendations self hour g) = Some recs ->
  last_n 3 (recent_window self)
  = map ev_action (last_n 3 (action_history self))
  /\ forall r, In r recs ->
       ~ In (rec_action r) (map ev_action (last_n 3 (action_history self))).
Proof.
  intros H.
  assert (W : last_n 3 (recent_window self)
              = map ev_action (last_n 3 (action_history self))).
  { unfold recent_window. rewrite last_n_map, last_n_last_n by lia.
    reflexivity. }
  split; [exact W|].
  intros r Hr Hin.
  pose proof (generate_recommendations_result self hour g) as R.
  rewrite H in R. destruct R as (_ & _ & R).
  assert (E : In (rec_action r)
                (spec_eligible (car_state self) (driver_preferences self)
                               (recent_window self) hour)).
  { apply (In_firstn 2). rewrite <- R. apply in_map. exact Hr. }
  apply spec_eligible_not_recent in E.
  rewrite W in E. apply mem_In in Hin. congruence.
Qed.

Lemma no_recently_performed_witness :
  ~ In "climate_turn_on"
       (map ev_action
            (last_n 3 (action_history (ai_with_history history_with_play)))).
Proof.
  refine (proj2 (no_recently_performed
                   (ai_with_history history_with_play) 12 sample_draws _ eq_refl)
                (mkRec "climate_turn_on" _ None) _).
  left. reflexivity.
Defined.

(** ** The break reminder *)

Section BreakReminder.

Lemma send_break_reminder_armed (self : AI) (now : string) (g : list nat) :
  break_reminder_sent self = false ->
  exists message,
    fst (send_break_reminder self now g)
    = publish (mkPub RECOMMENDATIONS_TOPIC "ai_suggestion"
                     [mkRec "take_break" message None] now)
              (set_break_reminder_sent true self).
Proof.
  intros H. unfold send_break_reminder. rewrite H. cbn [negb].
  unfold bind, ret.
  destruct (random_choice "" break_messages g) as [message g'].
  exists message. reflexivity.
Qed.

Lemma send_break_reminder_fired (self : AI) (now : string) (g : list nat) :
  break_reminder_sent self = true ->
  send_break_reminder self now g = (self, g).
Proof. intros H. unfold send_break_reminder. rewrite H. reflexivity. Qed.

Lemma break_expiries_fired (nows : list string) (self : AI) (g : list nat) :
  break_reminder_sent self = true -> break_expiries nows self g = (self, g).
Proof.
  intros H. induction nows as [|now nows IH]; simpl; [reflexivity|].
  unfold bind. rewrite (send_break_reminder_fired self now g H). exact IH.
Qed.

(** A pass of the loop publishes no break reminder and leaves the
    guard flag as it was. *)
Lemma recommendation_cycle_no_break (self : AI) (hour : Z) (now : string)
    (g : list nat) :
  let self' := fst (recommendation_cycle self hour now g) in
  break_reminder_sent self' = break_reminder_sent self
  /\ break_reminders (published self') = break_reminders (published self).
Proof.
  pose proof (generate_recommendations_result self hour g) as R.
  unfold recommendation_cycle, bind.
  destruct (generate_recommendations self hour g) as [[recs|] g'];
    cbn [fst] in *; [|split; reflexivity].
  destruct R as (_ & N & E).
  destruct recs as [|r recs]; [congruence|].
  cbn [nonempty send_recommendations negb fst ret].
  unfold ret, send_recommendations, publish.
  cbn [fst nonempty negb break_reminder_sent published].
  split; [reflexivity|].
  unfold break_reminders. rewrite filter_app. cbn [filter].
  assert (B : is_break_reminder
                (mkPub RECOMMENDATIONS_TOPIC "ai_suggestion" (r :: recs) now)
              = false).
  { unfold is_break_reminder. cbn [pub_recommendations].
    destruct (mem "take_break" (map rec_action (r :: recs))) eqn:M;
      [|reflexivity].
    apply mem_In in M. rewrite E in M. apply In_firstn in M.
    apply spec_eligible_no_break in M. contradiction. }
  rewrite B. apply app_nil_r.
Qed.

Lemma session_step_reminder (self : AI) (e : SessionEvent) (g : list nat) :
  at_most_one_reminder self ->
  at_most_one_reminder (fst (session_step self e g)).
Proof.
  intros [I1 I2]. destruct e as [action_data now | | now | hour now];
    cbn [session_step].
  - unfold ret. cbn [fst].
    destruct (handle_vehicle_action_fields self action_data now)
      as (_ & _ & Hb & Hp).
    unfold at_most_one_reminder. rewrite Hb, Hp. auto.
  - unfold ret. cbn [fst]. split; assumption.
  - destruct (break_reminder_sent self) eqn:F.
    + rewrite (send_break_reminder_fired self now g F). cbn [fst].
      split; [congruence | exact I2].
    + destruct (send_break_reminder_armed self now g F) as (m & ->).
      unfold at_most_one_reminder, publish, set_break_reminder_sent.
      cbn [break_reminder_sent published].
      unfold break_reminders. rewrite filter_app.
      fold (break_reminders (published self)). rewrite (I1 eq_refl).
      split; [discriminate | simpl; lia].
  - destruct (loop_guard self); [|split; assumption].
    destruct (recommendation_cycle_no_break self hour now g) as [Hb Hp].
    unfold at_most_one_reminder. rewrite Hb, Hp. auto.
Qed.

Lemma session_run_reminder (es : list SessionEvent) :
  forall self g,
    at_most_one_reminder self ->
    at_most_one_reminder (fst (session_run es self g)).
Proof.
  induction es as [|e es IH]; intros self g H; cbn [session_run].
  - exact H.
  - unfold bind.
    pose proof (session_step_reminder self e g H) as H'.
    destruct (session_step self e g) as [self' g']. apply IH. exact H'.
Qed.

End BreakReminder.

(** C7: an expiry with the guard flag unset sets the flag and hands the
    bus exactly one message, whose only recommendation has the action
    [take_break]; with the flag set an expiry, and any number of further
    expiries, change nothing; in every run of a session, whatever the
    events and their order, at most one break reminder is published. *)
Theorem break_reminder_once (self : AI) (now : string) (g : list nat) :
  (break_reminder_sent self = false ->
   exists message,
     let self' := fst (send_break_reminder self now g) in
     break_reminder_sent self' = true
     /\ published self'
        = (published self
           ++ [mkPub RECOMMENDATIONS_TOPIC "ai_suggestion"
                     [mkRec "take_break" message None] now])%list)
  /\ (break_reminder_sent self = true ->
      send_break_reminder self now g = (self, g)
      /\ forall nows, break_expiries nows self g = (self, g))
  /\ (forall es,
        (length (break_reminders (published (fst (session_run es init g))))
         <= 1)%nat).
Proof.
  split; [|split].
  - intros H. destruct (send_break_reminder_armed self now g H) as (m & E).
    exists m. cbv zeta. rewrite E. split; reflexivity.
  - intros H. split.
    + apply send_break_reminder_fired. exact H.
    + intros nows. apply break_expiries_fired. exact H.
  - intros es. apply (session_run_reminder es init g).
    split; [reflexivity | simpl; lia].
Qed.

Lemma break_reminder_once_witness :
  map (fun m => map rec_action (pub_recommendations m)) (published ai_reminded)
  = [["take_break"]]
  /\ break_expiries [sample_now; sample_now] ai_reminded sample_draws
     = (ai_reminded, sample_draws).
Proof.
  split.
  - destruct (proj1 (break_reminder_once init sample_now sample_draws) eq_refl)
      as (m & _ & E).
    fold ai_reminded in E. rewrite E. reflexivity.
  - apply (proj2 (proj1 (proj2 (break_reminder_once ai_reminded sample_now
                                                    sample_draws))
                        eq_refl)).
Defined.

(** * Further properties *)

(** ** More on the car state store *)

(** X16: within the range an increase followed by a decrease restores
    the car state: the temperature from 16 to 29, the volume from 0 to 90,
    the brightness from 0 to 80. At the upper bound the increase
    saturates, so from 30 the pair of actions ends at 29. *)
Theorem increase_decrease_round_trip (s : CarState) (v w : option Z) :
  (16 <= temperature s <= 29 ->
   update_car_state (update_car_state s "climate_increase" v)
                    "climate_decrease" w = s)
  /\ (0 <= volume s <= 90 ->
      update_car_state (update_car_state s "infotainment_volume_up" v)
                       "infotainment_volume_down" w = s)
  /\ (0 <= brightness s <= 80 ->
      update_car_state (update_car_state s "lights_brighten" v)
                       "lights_dim" w = s)
  /\ (temperature s = 30 ->
      temperature (update_car_state (update_car_state s "climate_increase" v)
                                    "climate_decrease" w) = 29).
Proof.
  unfold update_car_state; simpl.
  unfold set_temperature, set_volume, set_brightness; simpl.
  destruct s as [c t i vo l b sh sp]; simpl.
  repeat split; intros H; f_equal; lia.
Qed.

Lemma increase_decrease_round_trip_witness :
  update_car_state (update_car_state initial_car_state "climate_increase" None)
                   "climate_decrease" None = initial_car_state.
Proof.
  apply (proj1 (increase_decrease_round_trip initial_car_state None None)).
  simpl. lia.
Defined.

(** X17: in every reachable car state the brightness is one of 0, 20,
    40, 60, 80 and 100. *)
Theorem brightness_on_levels (s : CarState) :
  reachable s -> In (brightness s) brightness_levels.
Proof.
  induction 1 as [|s action value _ IH].
  - simpl. tauto.
  - unfold update_car_state. chain; simpl; try exact IH;
      simpl in IH;
      repeat (destruct IH as [IH|IH]; [rewrite <- IH; simpl; tauto|]);
      contradiction.
Qed.

Lemma brightness_on_levels_witness :
  In (brightness (update_car_state initial_car_state "lights_dim" None))
     brightness_levels.
Proof.
  apply brightness_on_levels. apply reachable_step, reachable_init.
Defined.
(** ** More on the preference learner *)

Section CounterFacts.

Lemma counter_get_incr (k k' : string) (c : list (string * nat)) :
  counter_get k (counter_incr k' c)
  = if k' =? k then S (counter_get k c) else counter_get k c.
Proof.
  induction c as [|[k0 n] c IH]; simpl.
  - destruct (k' =? k); reflexivity.
  - destruct (String.eqb_spec k0 k') as [->|N]; simpl.
    + destruct (k' =? k); reflexivity.
    + rewrite IH.
      destruct (String.eqb_spec k0 k) as [->|N'];
        destruct (String.eqb_spec k' k) as [->|N'']; congruence.
Qed.

Lemma counter_get_fold (k : string) (l : list string) :
  forall c,
    counter_get k (fold_left (fun c k => counter_incr k c) l c)
    = (counter_get k c + count_occ string_dec l k)%nat.
Proof.
  induction l as [|x l IH]; intros c; simpl; [lia|].
  rewrite IH, counter_get_incr.
  destruct (string_dec x k) as [->|N].
  - rewrite String.eqb_refl. lia.
  - rewrite (proj2 (String.eqb_neq x k) N). lia.
Qed.

Lemma counter_incr_keys (k x : string) (c : list (string * nat)) :
  In x (map fst (counter_incr k c)) <-> x = k \/ In x (map fst c).
Proof.
  induction c as [|[k0 n] c IH]; simpl.
  - intuition congruence.
  - destruct (String.eqb_spec k0 k) as [->|N]; simpl.
    + intuition congruence.
    + rewrite IH. intuition congruence.
Qed.

Lemma counter_incr_NoDup (k : string) (c : list (string * nat)) :
  NoDup (map fst c) -> NoDup (map fst (counter_incr k c)).
Proof.
  induction c as [|[k0 n] c IH]; simpl; intros H.
  - constructor; [intros [] | constructor].
  - inversion H as [|? ? Hn Hd]; subst.
    destruct (String.eqb_spec k0 k) as [->|N]; simpl.
    + constructor; assumption.
    + constructor; [|apply IH; exact Hd].
      rewrite counter_incr_keys. intros [E|E]; [congruence | contradiction].
Qed.

Lemma Counter_NoDup (l : list string) : NoDup (map fst (Counter l)).
Proof.
  unfold Counter.
  assert (G : forall c, NoDup (map fst c) ->
                NoDup (map fst (fold_left (fun c k => counter_incr k c) l c))).
  { induction l as [|x l IH]; intros c H; simpl; [exact H|].
    apply IH, counter_incr_NoDup, H. }
  apply G. constructor.
Qed.

Lemma Counter_get (k : string) (l : list string) :
  counter_get k (Counter l) = count_occ string_dec l k.
Proof. unfold Counter. rewrite counter_get_fold. reflexivity. Qed.

(** With distinct keys, the keys kept by a threshold on the counts are
    those whose count reaches it. *)
Lemma counter_threshold (t : nat) (a : string) (c : list (string * nat)) :
  (1 <= t)%nat -> NoDup (map fst c) ->
  In a (map fst (filter (fun kc => (t <=? snd kc)%nat) c))
  <-> (t <= counter_get a c)%nat.
Proof.
  intros Ht. induction c as [|[k n] c IH]; simpl; intros H.
  - split; [intros [] | lia].
  - inversion H as [|? ? Hn Hd]; subst. specialize (IH Hd).
    destruct (String.eqb_spec k a) as [->|N].
    + destruct (Nat.leb_spec t n) as [L|L]; simpl.
      * split; [intros _; exact L | intros _; left; reflexivity].
      * split; [|lia]. intros Hin. exfalso. apply Hn.
        apply in_map_iff in Hin as ((k' & n') & E & Hin).
        apply filter_In in Hin as [Hin _]. simpl in E. subst k'.
        apply in_map_iff. exists (a, n'). auto.
    + destruct (Nat.leb_spec t n) as [L|L]; simpl.
      * rewrite <- IH. split; [intros [E|E]; [congruence | exact E] | auto].
      * exact IH.
Qed.

Lemma filter_map_fst_NoDup {B : Type} (f : string * B -> bool)
    (c : list (string * B)) :
  NoDup (map fst c) -> NoDup (map fst (filter f c)).
Proof.
  induction c as [|x c IH]; simpl; intros H; [constructor|].
  inversion H as [|? ? Hn Hd]; subst.
  destruct (f x); simpl; [|apply IH, Hd].
  constructor; [|apply IH, Hd].
  intros Hin. apply Hn.
  apply in_map_iff in Hin as (y & E & Hin).
  apply filter_In in Hin as [Hin _].
  apply in_map_iff. exists y. auto.
Qed.

End CounterFacts.

Lemma learned_common_actions (self : AI) :
  (3 <= length (action_history self))%nat ->
  common_actions (driver_preferences (learn_preferences self))
  = map fst (filter (fun kc => (2 <=? snd kc)%nat)
                    (Counter (map ev_action (action_history self)))).
Proof.
  intros H. unfold learn_preferences.
  destruct (Nat.ltb_spec (length (action_history self)) 3) as [H'|_]; [lia|].
  reflexivity.
Qed.

(** X1: after a recompute on a history of at least 3 entries, an action
    name is among the common actions exactly when it occurs at least
    twice in the history, and no name is listed twice. *)
Theorem common_actions_twice (self : AI) (a : string) :
  (3 <= length (action_history self))%nat ->
  let p' := driver_preferences (learn_preferences self) in
  (In a (common_actions p')
   <-> (2 <= count_occ string_dec (map ev_action (action_history self)) a)%nat)
  /\ NoDup (common_actions p').
Proof.
  intros H p'. unfold p'. rewrite (learned_common_actions self H). split.
  - rewrite counter_threshold by (lia || apply Counter_NoDup).
    rewrite Counter_get. reflexivity.
  - apply filter_map_fst_NoDup, Counter_NoDup.
Qed.

Lemma common_actions_twice_witness :
  ~ In "climate_increase"
       (common_actions
          (driver_preferences
             (learn_preferences (ai_with_history history_20_22_24))))
  /\ In "climate_set_temperature"
        (common_actions
           (driver_preferences
              (learn_preferences (ai_with_history history_20_22_24)))).
Proof.
  assert (L : (3 <= length (action_history
                              (ai_with_history history_20_22_24)))%nat)
    by (simpl; lia).
  split.
  - intros H.
    apply (proj1 (proj1 (common_actions_twice
                           (ai_with_history history_20_22_24)
                           "climate_increase" L))) in H.
    vm_compute in H. lia.
  - apply (proj2 (proj1 (common_actions_twice
                           (ai_with_history history_20_22_24)
                           "climate_set_temperature" L))).
    vm_compute. lia.
Defined.

Lemma learned_untouched (self : AI) :
  preferred_brightness (driver_preferences (learn_preferences self))
  = preferred_brightness (driver_preferences self)
  /\ action_sequences (driver_preferences (learn_preferences self))
     = action_sequences (driver_preferences self).
Proof.
  unfold learn_preferences.
  destruct (length (action_history self) <? 3)%nat; [split; reflexivity|].
  cbv zeta.
  destruct (nonempty (set_actions "climate_set_temperature"
                                  (action_history self))),
           (nonempty (set_actions "infotainment_set_volume"
                                  (action_history self))),
           (nonempty (set_actions "seats_adjust" (action_history self))),
           (mem "infotainment_play" (map ev_action (action_history self))),
           (mem "seats_heat_on" (map ev_action (action_history self)));
    split; reflexivity.
Qed.

Lemma preferences_ext (p q : DriverPreferences) :
  preferred_temperature p = preferred_temperature q ->
  preferred_volume p = preferred_volume q ->
  preferred_seat_position p = preferred_seat_position q ->
  preferred_brightness p = preferred_brightness q ->
  likes_music p = likes_music q ->
  likes_warm_seats p = likes_warm_seats q ->
  common_actions p = common_actions q ->
  action_sequences p = action_sequences q ->
  p = q.
Proof. destruct p, q; simpl; intros; subst; reflexivity. Qed.

(** X2: a recompute is idempotent: learning again from the same
    history changes nothing. *)
Theorem learn_preferences_idempotent (self : AI) :
  learn_preferences (learn_preferences self) = learn_preferences self.
Proof.
  destruct (Nat.ltb_spec (length (action_history self)) 3) as [H|H].
  - rewrite !(learn_preferences_short self H). reflexivity.
  - destruct (learn_preferences_fields self) as (_ & Hh & _).
    assert (H' : (3 <= length (action_history (learn_preferences self)))%nat)
      by (rewrite Hh; exact H).
    destruct (learned_fields self H) as (F1 & F2 & F3 & F4 & F5).
    destruct (learned_fields _ H') as (G1 & G2 & G3 & G4 & G5).
    pose proof (learned_common_actions self H) as F6.
    pose proof (learned_common_actions _ H') as G6.
    destruct (learned_untouched (learn_preferences self)) as (G7 & G8).
    rewrite Hh in G1, G2, G3, G4, G5, G6.
    assert (E : driver_preferences (learn_preferences (learn_preferences self))
                = driver_preferences (learn_preferences self)).
    { apply preferences_ext; try assumption.
      - rewrite G1, F1. chain; reflexivity.
      - rewrite G2, F2. chain; reflexivity.
      - rewrite G3, F3. chain; reflexivity.
      - rewrite G4, F4, orb_assoc, orb_diag. reflexivity.
      - rewrite G5, F5, orb_assoc, orb_diag. reflexivity.
      - rewrite G6, F6. reflexivity. }
    rewrite (learn_preferences_frame (learn_preferences self)), E.
    rewrite (learn_preferences_frame self) at 2 3.
    destruct self; reflexivity.
Qed.

Lemma handle_vehicle_action_learn (self : AI) (action_data : ActionData)
    (now : string) :
  handle_vehicle_action self action_data now
  = learn_preferences (before_learning self action_data now).
Proof. reflexivity. Qed.

Lemma before_learning_fields (self : AI) (action_data : ActionData)
    (now : string) :
  let self' := before_learning self action_data now in
  action_history self'
  = deque_append HISTORY_MAXLEN (action_history self)
                 (event_of action_data now)
  /\ driver_preferences self' = driver_preferences self
  /\ learning_started self' = true
  /\ learning_complete self' = learning_complete self
  /\ recommendations_sent self' = recommendations_sent self
  /\ timers self'
     = (if learning_started self then timers self
        else (timers self ++ [(LEARNING_PERIOD, CompleteLearning);
                              (BREAK_REMINDER_TIME, SendBreakReminder)])%list)
  /\ session_start self'
     = (if learning_started self then session_start self else Some now).
Proof.
  unfold before_learning, event_of. cbv zeta.
  cbn [learning_started set_car_state set_action_history].
  destruct (learning_started self) eqn:E; cbn; rewrite ?E; repeat split.
Qed.

Lemma learn_preferences_session_fields (self : AI) :
  learning_started (learn_preferences self) = learning_started self
  /\ learning_complete (learn_preferences self) = learning_complete self
  /\ recommendations_sent (learn_preferences self) = recommendations_sent self
  /\ timers (learn_preferences self) = timers self
  /\ session_start (learn_preferences self) = session_start self
  /\ last_recommendation_time (learn_preferences self)
     = last_recommendation_time self.
Proof. rewrite learn_preferences_frame. simpl. repeat split. Qed.

(** X3: as long as the history ends with fewer than 3 entries, the
    events handled leave the preference profile as it was; in
    particular the first two events of a session leave the defaults. *)
Theorem short_sessions_learn_nothing (msgs : list (ActionData * string)) :
  forall self,
    (length (action_history self) + length msgs < 3)%nat ->
    driver_preferences (handle_all self msgs) = driver_preferences self.
Proof.
  induction msgs as [|[action_data now] msgs IH]; intros self H; simpl in *.
  - reflexivity.
  - destruct (before_learning_fields self action_data now)
      as (Hh & Hp & _).
    assert (L : length (action_history (before_learning self action_data now))
                = S (length (action_history self))).
    { rewrite Hh, deque_append_room by (unfold HISTORY_MAXLEN; lia).
      rewrite length_app. simpl. lia. }
    assert (E : handle_vehicle_action self action_data now
                = before_learning self action_data now).
    { rewrite handle_vehicle_action_learn.
      apply learn_preferences_short. lia. }
    rewrite IH; rewrite E; [exact Hp | lia].
Qed.

Lemma short_sessions_learn_nothing_witness :
  driver_preferences (handle_all init two_messages) = initial_preferences.
Proof.
  apply (short_sessions_learn_nothing two_messages init). simpl. lia.
Defined.

Lemma total_bounds (lo hi : Z) (l : list Z) :
  (forall v, In v l -> lo <= v <= hi) ->
  len l * lo <= total l <= len l * hi.
Proof.
  unfold len, total. induction l as [|x l IH]; intros H.
  - simpl. lia.
  - assert (Hx : lo <= x <= hi) by (apply H; left; reflexivity).
    assert (Hl : forall v, In v l -> lo <= v <= hi)
      by (intros v Hv; apply H; right; exact Hv).
    specialize (IH Hl). cbn [length fold_right].
    rewrite Nat2Z.inj_succ. lia.
Qed.

Lemma floor_mean_bounds (lo hi : Z) (l : list Z) :
  l <> [] -> (forall v, In v l -> lo <= v <= hi) ->
  lo <= py_sum l / len l <= hi.
Proof.
  intros Hn H. rewrite py_sum_total.
  pose proof (total_bounds lo hi l H) as B.
  assert (P : 0 < len l)
    by (unfold len; destruct l; [congruence | simpl; lia]).
  split.
  - apply Z.div_le_lower_bound; lia.
  - apply Z.div_le_upper_bound; lia.
Qed.

Lemma set_action_values (kind : string) (h : list ActionEvent) (v : Z) :
  In v (values_of (set_actions kind h)) <->
  v <> 0 /\ exists act, In act h /\ ev_action act = kind
                        /\ ev_value act = Some v.
Proof.
  unfold values_of, set_actions. rewrite in_map_iff. split.
  - intros (act & E & Hin). apply filter_In in Hin as [Hin Hc].
    apply andb_true_iff in Hc as [Hk Ht].
    apply String.eqb_eq in Hk. apply truthy_spec in Ht as (w & Ew & Hw).
    rewrite Ew in E. simpl in E. subst w.
    split; [exact Hw|]. exists act. auto.
  - intros (Hv & act & Hin & Hk & Ev). exists act. split.
    + rewrite Ev. reflexivity.
    + apply filter_In. split; [exact Hin|].
      apply andb_true_iff. split.
      * apply String.eqb_eq. exact Hk.
      * apply truthy_spec. exists v. auto.
Qed.

(** X19: after a recompute on a history of at least 3 entries, when
    the values of a set-action kind that are neither null nor 0 all lie
    between two bounds and there is at least one, the preferred field of
    that kind lies between the same bounds. *)
Theorem learned_mean_within_range (self : AI) (lo hi : Z) :
  let h := action_history self in
  let p' := driver_preferences (learn_preferences self) in
  let within kind :=
    forall act v, In act h -> ev_action act = kind ->
                  ev_value act = Some v -> v <> 0 -> lo <= v <= hi in
  let some kind :=
    exists act v, In act h /\ ev_action act = kind
                  /\ ev_value act = Some v /\ v <> 0 in
  (3 <= length h)%nat ->
  (within "climate_set_temperature" -> some "climate_set_temperature" ->
   lo <= preferred_temperature p' <= hi)
  /\ (within "infotainment_set_volume" -> some "infotainment_set_volume" ->
      lo <= preferred_volume p' <= hi)
  /\ (within "seats_adjust" -> some "seats_adjust" ->
      lo <= preferred_seat_position p' <= hi).
Proof.
  intros h p' within some H.
  destruct (learned_fields self H) as (F1 & F2 & F3 & _).
  fold h in F1, F2, F3. fold p' in F1, F2, F3.
  assert (G : forall kind, within kind -> some kind ->
                nonempty (set_actions kind h) = true
                /\ lo <= py_sum (values_of (set_actions kind h))
                         / len (values_of (set_actions kind h)) <= hi).
  { intros kind W (act & v & Hin & Hk & Hv & Hz).
    assert (I : In v (values_of (set_actions kind h)))
      by (apply set_action_values; split; [exact Hz|]; exists act; auto).
    assert (N : values_of (set_actions kind h) <> [])
      by (intros E; rewrite E in I; exact I).
    split.
    - destruct (set_actions kind h); [exfalso; apply N; reflexivity|].
      reflexivity.
    - apply floor_mean_bounds; [exact N|].
      intros w Hw. apply set_action_values in Hw as (Hw & a & Ha & Ka & Va).
      apply (W a w); assumption. }
  split; [|split]; intros W S; destruct (G _ W S) as [N B].
  - rewrite F1, N. exact B.
  - rewrite F2, N. exact B.
  - rewrite F3, N. exact B.
Qed.

Lemma learned_mean_within_range_witness :
  20 <= preferred_temperature
          (driver_preferences
             (learn_preferences (ai_with_history history_20_22_24))) <= 24.
Proof.
  apply (learned_mean_within_range (ai_with_history history_20_22_24) 20 24).
  - simpl. lia.
  - intros act v [<-|[<-|[<-|[]]]] _ E _; injection E as <-; lia.
  - exists (set_temperature_event 20), 20.
    repeat split; [left; reflexivity | discriminate].
Defined.

(** X18: a set action that comes without a value leaves the car state
    as it was; its event is the newest entry of the history, and it adds
    nothing to the values a recompute averages. *)
Theorem set_action_without_value (self : AI) (kind : string)
    (timestamp : option string) (now : string) :
  In kind ["climate_set_temperature"; "infotainment_set_volume";
           "seats_adjust"] ->
  let data := mkData (Some kind) timestamp None in
  car_state (handle_vehicle_action self data now) = car_state self
  /\ (exists older,
        action_history (handle_vehicle_action self data now)
        = (older ++ [event_of data now])%list)
  /\ forall k h,
       values_of (set_actions k (h ++ [event_of data now]))
       = values_of (set_actions k h).
Proof.
  intros H data.
  destruct (handle_vehicle_action_fields self data now) as (Hc & Hh & _).
  split; [|split].
  - rewrite Hc. simpl in H.
    destruct H as [<-|[<-|[<-|[]]]]; reflexivity.
  - rewrite Hh. apply deque_append_snoc. unfold HISTORY_MAXLEN. lia.
  - intros k h. unfold set_actions. rewrite filter_app. simpl.
    rewrite andb_false_r. rewrite app_nil_r. reflexivity.
Qed.

Lemma set_action_without_value_witness :
  car_state
    (handle_vehicle_action init (mkData (Some "seats_adjust") None None)
                           sample_now)
  = initial_car_state.
Proof.
  apply (set_action_without_value init "seats_adjust" None sample_now).
  simpl. tauto.
Defined.

(** ** The messages that reach the history *)

Lemma tl_skipn {A : Type} (n : nat) (l : list A) :
  tl (skipn n l) = skipn (S n) l.
Proof.
  revert l. induction n as [|n IH]; intros l.
  - destruct l; reflexivity.
  - destruct l as [|x l]; [reflexivity|].
    change (tl (skipn n l) = skipn (S n) l). apply IH.
Qed.

Lemma deque_append_last_n {A : Type} (maxlen : nat) (l : list A) (x : A) :
  (1 <= maxlen)%nat ->
  deque_append maxlen (last_n maxlen l) x = last_n maxlen (l ++ [x]).
Proof.
  intros H. unfold last_n at 2. rewrite length_app, Nat.add_1_r.
  destruct (Nat.lt_ge_cases (length l) maxlen) as [L|L].
  - replace (S (length l) - maxlen)%nat with 0%nat by lia.
    unfold last_n. replace (length l - maxlen)%nat with 0%nat by lia.
    simpl. apply deque_append_room. exact L.
  - rewrite deque_append_full.
    + unfold last_n. rewrite tl_skipn.
      replace (S (length l) - maxlen)%nat with (S (length l - maxlen)) by lia.
      rewrite skipn_app.
      replace (S (length l - maxlen) - length l)%nat with 0%nat by lia.
      reflexivity.
    + exact H.
    + unfold last_n. rewrite length_skipn. lia.
Qed.

Lemma apply_events_snoc (s : CarState) (l : list ActionEvent) (e : ActionEvent) :
  apply_events s (l ++ [e])
  = update_car_state (apply_events s l) (ev_action e) (ev_value e).
Proof. unfold apply_events. rewrite fold_left_app. reflexivity. Qed.

Lemma on_messages_state (msgs : list (string * Payload * string)) :
  forall (self : AI) (s0 : CarState) (seen : list ActionEvent),
    action_history self = last_n HISTORY_MAXLEN seen ->
    car_state self = apply_events s0 seen ->
    action_history (on_messages self msgs)
    = last_n HISTORY_MAXLEN (seen ++ accepted msgs)
    /\ car_state (on_messages self msgs)
       = apply_events s0 (seen ++ accepted msgs).
Proof.
  induction msgs as [|[[topic payload] now] msgs IH]; intros self s0 seen Hh Hc.
  - simpl. rewrite app_nil_r. auto.
  - cbn [on_messages accepted flat_map]. fold (accepted msgs).
    destruct payload as [|data]; cbn [on_message].
    + apply IH; assumption.
    + destruct (topic =? ACTIONS_TOPIC).
      * rewrite app_assoc.
        destruct (handle_vehicle_action_fields self data now)
          as (Hc' & Hh' & _).
        apply IH.
        -- rewrite Hh', Hh. apply deque_append_last_n.
           unfold HISTORY_MAXLEN. lia.
        -- rewrite Hc', Hc, apply_events_snoc. reflexivity.
      * simpl. apply IH; assumption.
Qed.

(** X4: after any sequence of bus messages, the history holds the last
    50 of the events of the decodable messages on [vehicle/actions], in
    their order of arrival, and the car state is the defaults with all
    of these events applied in that order; messages on other topics and
    payloads that do not decode change nothing. *)
Theorem history_is_last_50_accepted (msgs : list (string * Payload * string)) :
  action_history (on_messages init msgs) = last_n 50 (accepted msgs)
  /\ car_state (on_messages init msgs)
     = apply_events initial_car_state (accepted msgs).
Proof.
  apply (on_messages_state msgs init initial_car_state []); reflexivity.
Qed.

(** ** Arming the timers *)

(** X5: however many events follow the first one, the session start is
    the time of the first event and the timers are the two that were
    started with it: the learning timer of 30 seconds and the break
    timer of 200 seconds. *)
Theorem timers_armed_once (action_data : ActionData) (now : string)
    (rest : list (ActionData * string)) :
  let self := handle_all init ((action_data, now) :: rest) in
  learning_started self = true
  /\ session_start self = Some now
  /\ timers self = [(LEARNING_PERIOD, CompleteLearning);
                    (BREAK_REMINDER_TIME, SendBreakReminder)].
Proof.
  assert (G : forall msgs self,
            learning_started self = true ->
            learning_started (handle_all self msgs) = true
            /\ session_start (handle_all self msgs) = session_start self
            /\ timers (handle_all self msgs) = timers self).
  { induction msgs as [|[d t] msgs IH]; intros self H; simpl; [auto|].
    destruct (learn_preferences_session_fields (before_learning self d t))
      as (L1 & _ & _ & L4 & L5 & _).
    destruct (before_learning_fields self d t)
      as (_ & _ & B3 & _ & _ & B6 & B7).
    rewrite H in B6, B7.
    destruct (IH (handle_vehicle_action self d t)) as (I1 & I2 & I3).
    - rewrite handle_vehicle_action_learn, L1. exact B3.
    - rewrite I1, I2, I3, handle_vehicle_action_learn, L4, L5, B6, B7. auto. }
  cbn [handle_all].
  destruct (learn_preferences_session_fields
              (before_learning init action_data now))
    as (L1 & _ & _ & L4 & L5 & _).
  destruct (before_learning_fields init action_data now)
    as (_ & _ & B3 & _ & _ & B6 & B7).
  destruct (G rest (handle_vehicle_action init action_data now))
    as (I1 & I2 & I3).
  - rewrite handle_vehicle_action_learn, L1. exact B3.
  - cbv zeta.
    rewrite I1, I2, I3, handle_vehicle_action_learn, L4, L5, B6, B7.
    repeat split.
Qed.

(** ** Connecting to the broker *)




(** ** More on the recommendation generator *)

Lemma generate_recommendations_table (self : AI) (hour : Z) (g : list nat) :
  exists recs,
    fst (generate_recommendations self hour g)
    = (if nonempty recs then Some (firstn 2 recs) else None)
    /\ map rec_request recs = map snd (filter fst (rule_table self hour)).
Proof.
  unfold generate_recommendations. cbv zeta.
  repeat match goal with
         | |- context [bind (if ?c then
                               bind ?ph (fun message =>
                                 ret (?recs ++ [mkRec ?a message ?v])%list)
                             else ret ?recs) ?k ?g] =>
             destruct (bind_rule c ph a v recs k g) as (? & ? & ->)
         | |- context [if ?c then ret ?x else ret ?y] =>
             rewrite (if_ret c x y)
         | |- context [bind (ret ?x) ?k ?g] =>
             rewrite (bind_ret x k g)
         end.
  eexists. split; [reflexivity|].
  unfold rule_table, recent_window. cbv zeta.
  destruct ((18 <=? hour)%Z || (hour <=? 6)%Z);
    cbn [filter map fst snd app rec_request rec_action rec_value];
    repeat (match goal with
            | |- context [if ?c then _ else _] => destruct c
            end; cbn [filter map fst snd app rec_request rec_action rec_value]);
    reflexivity.
Qed.

Lemma generate_recommendations_requests (self : AI) (hour : Z) (g : list nat) :
  requests (fst (generate_recommendations self hour g))
  = match map snd (filter fst (rule_table self hour)) with
    | [] => None
    | fired => Some (firstn 2 fired)
    end.
Proof.
  destruct (generate_recommendations_table self hour g) as (recs & -> & E).
  rewrite <- E. destruct recs as [|r [|r' recs]]; reflexivity.
Qed.

(** What it takes for a request to be among those of the rules that pass. *)
Lemma rule_table_fired (self : AI) (hour : Z) (a : string) (v : option Z) :
  In (a, v) (map snd (filter fst (rule_table self hour))) ->
  let car := car_state self in
  let prefs := driver_preferences self in
  let night := (18 <=? hour)%Z || (hour <=? 6)%Z in
  (a = "climate_turn_on" /\ v = None /\ climate_on car = false)
  \/ (a = "climate_set_temperature" /\ v = Some (preferred_temperature prefs)
      /\ climate_on car = true
      /\ preferred_temperature prefs <> temperature car)
  \/ (a = "infotainment_play" /\ v = None /\ infotainment_on car = false
      /\ likes_music prefs = true)
  \/ (a = "infotainment_set_volume" /\ v = Some (preferred_volume prefs)
      /\ infotainment_on car = true
      /\ preferred_volume prefs <> volume car)
  \/ (a = "lights_turn_on" /\ v = None /\ lights_on car = false
      /\ night = true)
  \/ (a = "lights_turn_off" /\ v = None /\ lights_on car = true
      /\ night = false)
  \/ (a = "seats_heat_on" /\ v = None /\ seats_heated car = false
      /\ likes_warm_seats prefs = true)
  \/ (a = "seats_adjust" /\ v = Some (preferred_seat_position prefs)
      /\ preferred_seat_position prefs <> seat_position car).
Proof.
  intros H car prefs night. subst car prefs night.
  apply in_map_iff in H as ((c & a' & v') & E & H).
  apply filter_In in H as [H Hc]. cbn [fst snd] in *.
  injection E as -> ->.
  unfold rule_table in H. cbv zeta in H.
  destruct ((18 <=? hour)%Z || (hour <=? 6)%Z);
    cbn [In] in H;
    repeat (destruct H as [H|H]; [injection H as <- <- <-|]);
    try contradiction;
    repeat (apply andb_true_iff in Hc as [Hc ?]);
    repeat match goal with
           | Hn : negb _ = true |- _ => apply negb_true_iff in Hn
           | Hn : (_ =? _)%Z = false |- _ => apply Z.eqb_neq in Hn
           end;
    tauto.
Qed.

Lemma returned_request (self : AI) (hour : Z) (g : list nat)
    (recs : list Recommendation) :
  fst (generate_recommendations self hour g) = Some recs ->
  map rec_request recs
  = firstn 2 (map snd (filter fst (rule_table self hour)))
  /\ forall r, In r recs ->
       In (rec_action r, rec_value r)
          (map snd (filter fst (rule_table self hour))).
Proof.
  intros H.
  pose proof (generate_recommendations_requests self hour g) as R.
  rewrite H in R. cbn [requests option_map] in R.
  assert (E : map rec_request recs
              = firstn 2 (map snd (filter fst (rule_table self hour)))).
  { destruct (map snd (filter fst (rule_table self hour)));
      [discriminate R | injection R as R; exact R]. }
  split; [exact E|].
  intros r Hr. apply (In_firstn 2). rewrite <- E.
  apply (in_map rec_request) in Hr. exact Hr.
Qed.

(** X7: a returned recommendation carries the preferred temperature
    when its action is [climate_set_temperature], the preferred volume
    when it is [infotainment_set_volume], the preferred seat position
    when it is [seats_adjust], and no value when it is one of the five
    other actions the generator can recommend. *)
Theorem recommendation_values (self : AI) (hour : Z) (g : list nat)
    (recs : list Recommendation) (r : Recommendation) :
  fst (generate_recommendations self hour g) = Some recs ->
  In r recs ->
  let prefs := driver_preferences self in
  (rec_action r = "climate_set_temperature"
   /\ rec_value r = Some (preferred_temperature prefs))
  \/ (rec_action r = "infotainment_set_volume"
      /\ rec_value r = Some (preferred_volume prefs))
  \/ (rec_action r = "seats_adjust"
      /\ rec_value r = Some (preferred_seat_position prefs))
  \/ (In (rec_action r)
         ["climate_turn_on"; "infotainment_play"; "lights_turn_on";
          "lights_turn_off"; "seats_heat_on"]
      /\ rec_value r = None).
Proof.
  intros H Hr prefs.
  destruct (returned_request self hour g recs H) as [_ F].
  pose proof (rule_table_fired self hour _ _ (F r Hr)) as D.
  cbv zeta in D. fold prefs in D.
  destruct D as [D|[D|[D|[D|[D|[D|[D|D]]]]]]];
    destruct D as (Ha & Hv & _); rewrite Ha, Hv; simpl; tauto.
Qed.

Lemma recommendation_values_witness :
  rec_action sample_recommendation = "climate_set_temperature"
  /\ rec_value sample_recommendation = Some 22.
Proof.
  destruct (recommendation_values ai_climate_on_cold 20 sample_draws
              evening_recommendations sample_recommendation
              eq_refl (or_introl eq_refl))
    as [V|[[V _]|[[V _]|[[V|[V|[V|[V|[V|[]]]]]] _]]]];
    [exact V | discriminate V ..].
Defined.

(** X8: the actions and values of the returned recommendations do not
    depend on the random draws, which only select the phrasing. *)
Theorem requests_independent_of_draws (self : AI) (hour : Z)
    (g1 g2 : list nat) :
  requests (fst (generate_recommendations self hour g1))
  = requests (fst (generate_recommendations self hour g2)).
Proof. rewrite !generate_recommendations_requests. reflexivity. Qed.

(** X11: when the climate is off and [climate_turn_on] is not among
    the last 3 recorded actions, the generator returns a list whose
    first recommendation is [climate_turn_on], without a value. *)
Theorem climate_rule_first (self : AI) (hour : Z) (g : list nat) :
  climate_on (car_state self) = false ->
  ~ In "climate_turn_on" (map ev_action (last_n 3 (action_history self))) ->
  exists r rest,
    fst (generate_recommendations self hour g) = Some (r :: rest)
    /\ rec_action r = "climate_turn_on" /\ rec_value r = None.
Proof.
  intros Hc Hn.
  assert (M : mem "climate_turn_on" (last_n 3 (recent_window self)) = false).
  { destruct (mem "climate_turn_on" (last_n 3 (recent_window self))) eqn:M;
      [|reflexivity].
    apply mem_In in M. exfalso. apply Hn.
    unfold recent_window in M.
    rewrite last_n_map, last_n_last_n in M by lia. exact M. }
  pose proof (generate_recommendations_requests self hour g) as R.
  unfold rule_table in R. cbv zeta in R. rewrite Hc, M in R.
  cbn [negb andb filter fst snd map] in R.
  destruct (fst (generate_recommendations self hour g)) as [recs|];
    [|discriminate R].
  cbn [requests option_map firstn] in R.
  destruct recs as [|r rest]; [discriminate R|].
  exists r, rest. cbn [map rec_request] in R.
  inversion R. auto.
Qed.

Lemma climate_rule_first_witness :
  exists r rest,
    fst (generate_recommendations (ai_with_history history_with_play) 20
                                  sample_draws) = Some (r :: rest)
    /\ rec_action r = "climate_turn_on" /\ rec_value r = None.
Proof.
  apply climate_rule_first.
  - reflexivity.
  - simpl. intros [H|[H|[H|[]]]]; discriminate H.
Defined.

(** X10: the returned recommendations have distinct actions, and never
    hold both [climate_turn_on] and [climate_set_temperature], both
    [infotainment_play] and [infotainment_set_volume], or both
    [lights_turn_on] and [lights_turn_off]. *)
Theorem exclusive_recommendations (self : AI) (hour : Z) (g : list nat)
    (recs : list Recommendation) :
  fst (generate_recommendations self hour g) = Some recs ->
  let actions := map rec_action recs in
  NoDup actions
  /\ ~ (In "climate_turn_on" actions /\ In "climate_set_temperature" actions)
  /\ ~ (In "infotainment_play" actions
        /\ In "infotainment_set_volume" actions)
  /\ ~ (In "lights_turn_on" actions /\ In "lights_turn_off" actions).
Proof.
  intros H actions.
  destruct (returned_request self hour g recs H) as [E F].
  assert (G : forall a, In a actions ->
                exists v, In (a, v) (map snd (filter fst (rule_table self hour)))).
  { intros a Ha. apply in_map_iff in Ha as (r & <- & Hr).
    exists (rec_value r). apply F. exact Hr. }
  split; [|split; [|split]].
  - assert (A : actions
                = firstn 2 (map fst (map snd (filter fst (rule_table self hour))))).
    { unfold actions. rewrite firstn_map, <- E, map_map. reflexivity. }
    rewrite A. clear.
    assert (N : NoDup (map fst (map snd (filter fst (rule_table self hour))))).
    { unfold rule_table. cbv zeta.
      destruct ((18 <=? hour)%Z || (hour <=? 6)%Z);
        cbn [filter map fst snd];
        repeat (match goal with
                | |- context [if ?c then _ else _] => destruct c
                end; cbn [filter map fst snd]);
        repeat constructor; simpl; intuition discriminate. }
    revert N. generalize (map fst (map snd (filter fst (rule_table self hour)))).
    intros l N. rewrite <- (firstn_skipn 2 l) in N.
    apply NoDup_app_remove_r in N. exact N.
  - intros [A B]. destruct (G _ A) as (v & Hv). destruct (G _ B) as (w & Hw).
    apply rule_table_fired in Hv, Hw. cbv zeta in Hv, Hw.
    destruct Hv as [D|[D|[D|[D|[D|[D|[D|D]]]]]]];
      destruct D as (Ha & D); try discriminate Ha.
    destruct Hw as [D'|[D'|[D'|[D'|[D'|[D'|[D'|D']]]]]]];
      destruct D' as (Ha' & D'); try discriminate Ha'.
    destruct D as (_ & D). destruct D' as (_ & D' & _). congruence.
  - intros [A B]. destruct (G _ A) as (v & Hv). destruct (G _ B) as (w & Hw).
    apply rule_table_fired in Hv, Hw. cbv zeta in Hv, Hw.
    destruct Hv as [D|[D|[D|[D|[D|[D|[D|D]]]]]]];
      destruct D as (Ha & D); try discriminate Ha.
    destruct Hw as [D'|[D'|[D'|[D'|[D'|[D'|[D'|D']]]]]]];
      destruct D' as (Ha' & D'); try discriminate Ha'.
    destruct D as (_ & D & _). destruct D' as (_ & D' & _). congruence.
  - intros [A B]. destruct (G _ A) as (v & Hv). destruct (G _ B) as (w & Hw).
    apply rule_table_fired in Hv, Hw. cbv zeta in Hv, Hw.
    destruct Hv as [D|[D|[D|[D|[D|[D|[D|D]]]]]]];
      destruct D as (Ha & D); try discriminate Ha.
    destruct Hw as [D'|[D'|[D'|[D'|[D'|[D'|[D'|D']]]]]]];
      destruct D' as (Ha' & D'); try discriminate Ha'.
    destruct D as (_ & D & _). destruct D' as (_ & D' & _). congruence.
Qed.

Lemma exclusive_recommendations_witness :
  NoDup (map rec_action evening_recommendations).
Proof.
  apply (exclusive_recommendations ai_climate_on_cold 20 sample_draws
                                   evening_recommendations eq_refl).
Defined.

(** X9: when a returned recommendation whose value is not 0 is applied
    to the car state, with the preferences, the history and the hour
    unchanged, the generator does not return a recommendation of that
    action again. *)
Theorem recommendation_resolves (self : AI) (hour : Z) (g : list nat)
    (recs : list Recommendation) (r : Recommendation) :
  fst (generate_recommendations self hour g) = Some recs ->
  In r recs ->
  rec_value r <> Some 0 ->
  let self' :=
    set_car_state
      (update_car_state (car_state self) (rec_action r) (rec_value r)) self in
  forall g' recs',
    fst (generate_recommendations self' hour g') = Some recs' ->
    ~ In (rec_action r) (map rec_action recs').
Proof.
  intros H Hr Hz self' g' recs' H' Hin.
  destruct (returned_request self hour g recs H) as [_ F].
  pose proof (rule_table_fired self hour _ _ (F r Hr)) as D.
  destruct (returned_request self' hour g' recs' H') as [_ F'].
  apply in_map_iff in Hin as (r' & Ea & Hr').
  pose proof (rule_table_fired self' hour _ _ (F' r' Hr')) as D'.
  rewrite Ea in D'. cbv zeta in D, D'.
  assert (P : driver_preferences self' = driver_preferences self)
    by reflexivity.
  assert (C : car_state self'
              = update_car_state (car_state self) (rec_action r) (rec_value r))
    by reflexivity.
  rewrite P, C in D'. clear P C F F' H H' Hr Hr' Ea.
  destruct D as [D|[D|[D|[D|[D|[D|[D|D]]]]]]];
    destruct D as (Ha & Hv & D); rewrite Ha, Hv in *;
    destruct D' as [D'|[D'|[D'|[D'|[D'|[D'|[D'|D']]]]]]];
    destruct D' as (Ha' & Hv' & D'); try discriminate Ha';
    try (match type of Hz with
         | Some ?p <> Some 0 =>
             assert (Hp : p <> 0) by congruence;
             destruct (update_direct_set (car_state self) p Hp)
               as (Ut & Uv & Us);
             try rewrite Ut in D'; try rewrite Uv in D';
             try rewrite Us in D'
         end);
    try (unfold update_car_state in D'; simpl in D');
    try tauto; try (destruct D' as (D' & _)); try discriminate D';
    try congruence.
Qed.

Lemma recommendation_resolves_witness :
  map rec_action evening_recommendations
  = ["climate_set_temperature"; "lights_turn_on"]
  /\ ~ In "climate_set_temperature" (map rec_action later_recommendations).
Proof.
  split; [reflexivity|].
  assert (Z0 : rec_value sample_recommendation <> Some 0) by discriminate.
  exact (recommendation_resolves ai_climate_on_cold 20 sample_draws
           evening_recommendations sample_recommendation
           eq_refl (or_introl eq_refl) Z0
           sample_draws later_recommendations eq_refl).
Defined.

(** ** Sessions *)

Section Sessions.

Lemma handle_vehicle_action_session_fields (self : AI)
    (action_data : ActionData) (now : string) :
  let self' := handle_vehicle_action self action_data now in
  learning_started self' = true
  /\ learning_complete self' = learning_complete self
  /\ recommendations_sent self' = recommendations_sent self
  /\ break_reminder_sent self' = break_reminder_sent self
  /\ published self' = published self.
Proof.
  cbv zeta.
  destruct (handle_vehicle_action_fields self action_data now)
    as (_ & _ & Hb & Hp).
  rewrite Hb, Hp. rewrite handle_vehicle_action_learn.
  destruct (learn_preferences_session_fields
              (before_learning self action_data now))
    as (-> & -> & -> & _).
  destruct (before_learning_fields self action_data now)
    as (_ & _ & -> & -> & -> & _).
  repeat split.
Qed.

(** A pass of the loop either changes nothing or publishes one message
    of one or two recommendations, none of them the break reminder. *)
Lemma recommendation_cycle_step (self : AI) (hour : Z) (now : string)
    (g : list nat) :
  let self' := fst (recommendation_cycle self hour now g) in
  self' = self
  \/ exists recs,
       (1 <= length recs <= 2)%nat
       /\ is_break_reminder
            (mkPub RECOMMENDATIONS_TOPIC "ai_suggestion" recs now) = false
       /\ published self'
          = (published self
             ++ [mkPub RECOMMENDATIONS_TOPIC "ai_suggestion" recs now])%list
       /\ recommendations_sent self' = S (recommendations_sent self)
       /\ last_recommendation_time self' = Some now
       /\ learning_started self' = learning_started self
       /\ learning_complete self' = learning_complete self
       /\ break_reminder_sent self' = break_reminder_sent self.
Proof.
  pose proof (generate_recommendations_result self hour g) as R.
  unfold recommendation_cycle, bind.
  destruct (generate_recommendations self hour g) as [[recs|] g'];
    cbn [fst] in *; [|left; reflexivity].
  destruct R as (_ & N & E).
  destruct recs as [|r recs]; [congruence|].
  right. exists (r :: recs).
  unfold ret, send_recommendations, publish.
  cbn [fst nonempty negb published recommendations_sent
       last_recommendation_time learning_started learning_complete
       break_reminder_sent].
  split; [|split; [|repeat split]].
  - rewrite <- (length_map rec_action), E.
    split; [|apply firstn_le_length].
    rewrite <- E. simpl. lia.
  - unfold is_break_reminder. cbn [pub_recommendations].
    destruct (mem "take_break" (map rec_action (r :: recs))) eqn:M;
      [|reflexivity].
    apply mem_In in M. rewrite E in M. apply In_firstn in M.
    apply spec_eligible_no_break in M. contradiction.
Qed.

Lemma session_step_invariant (self : AI) (e : SessionEvent) (g : list nat) :
  session_invariant self -> session_invariant (fst (session_step self e g)).
Proof.
  intros I. pose proof I as (I1 & I2 & I3 & I4).
  destruct e as [action_data now | | now | hour now]; cbn [session_step].
  - unfold ret. cbn [fst].
    destruct (handle_vehicle_action_session_fields self action_data now)
      as (_ & Hc & Hs & _ & Hp).
    unfold session_invariant. rewrite Hc, Hs, Hp. auto.
  - unfold ret. cbn [fst]. unfold session_invariant, complete_learning.
    cbn [recommendations_sent published learning_complete].
    repeat split; try assumption. discriminate.
  - destruct (break_reminder_sent self) eqn:F.
    + rewrite (send_break_reminder_fired self now g F). exact I.
    + destruct (send_break_reminder_armed self now g F) as (m & ->).
      unfold session_invariant, publish, set_break_reminder_sent.
      cbn [recommendations_sent published learning_complete].
      unfold suggestions_published. rewrite filter_app. cbn [filter].
      change (is_break_reminder
                (mkPub RECOMMENDATIONS_TOPIC "ai_suggestion"
                       [mkRec "take_break" m None] now)) with true.
      cbn [negb]. rewrite app_nil_r.
      repeat split; try assumption.
      apply Forall_app. split; [exact I4|].
      constructor; [|constructor].
      repeat split; simpl; lia.
  - destruct (loop_guard self) eqn:G; [|exact I].
    unfold loop_guard in G. apply andb_true_iff in G as [C L].
    apply Nat.ltb_lt in L.
    destruct (recommendation_cycle_step self hour now g)
      as [->|(recs & Hl & Hb & Hp & Hs & _ & _ & Hc & _)]; [exact I|].
    unfold session_invariant. rewrite Hp, Hs, Hc.
    unfold suggestions_published. rewrite filter_app. cbn [filter].
    rewrite Hb. cbn [negb]. rewrite length_app. cbn [length].
    fold (suggestions_published (published self)). rewrite I2.
    split; [lia|]. split; [lia|]. split; [rewrite C; discriminate|].
    apply Forall_app. split; [exact I4|].
    constructor; [|constructor].
    repeat split; simpl; lia.
Qed.

Lemma session_run_invariant (es : list SessionEvent) :
  forall self g,
    session_invariant self ->
    session_invariant (fst (session_run es self g)).
Proof.
  induction es as [|e es IH]; intros self g H; cbn [session_run].
  - exact H.
  - unfold bind.
    pose proof (session_step_invariant self e g H) as H'.
    destruct (session_step self e g) as [self' g']. apply IH. exact H'.
Qed.

Lemma init_invariant : session_invariant init.
Proof.
  unfold session_invariant, MAX_RECOMMENDATIONS_PER_SESSION. simpl.
  repeat split; try lia. constructor.
Qed.

Lemma filter_split_length {A : Type} (f : A -> bool) (l : list A) :
  length l
  = (length (filter f l) + length (filter (fun x => negb (f x)) l))%nat.
Proof.
  induction l as [|x l IH]; simpl; [reflexivity|].
  destruct (f x); simpl; lia.
Qed.

Lemma session_step_flags (self : AI) (e : SessionEvent) (g : list nat) :
  flags_le self (fst (session_step self e g)).
Proof.
  unfold flags_le.
  destruct e as [action_data now | | now | hour now]; cbn [session_step].
  - unfold ret. cbn [fst].
    destruct (handle_vehicle_action_session_fields self action_data now)
      as (-> & -> & _ & -> & _). auto.
  - unfold ret. cbn [fst]. unfold complete_learning. simpl. auto.
  - destruct (break_reminder_sent self) eqn:F.
    + rewrite (send_break_reminder_fired self now g F). cbn [fst]. auto.
    + destruct (send_break_reminder_armed self now g F) as (m & ->).
      simpl. auto.
  - destruct (loop_guard self); [|unfold ret; cbn [fst]; auto].
    destruct (recommendation_cycle_step self hour now g)
      as [->|(recs & _ & _ & _ & _ & _ & -> & -> & ->)]; auto.
Qed.

Lemma session_step_not_complete (self : AI) (e : SessionEvent) (g : list nat) :
  is_learning_expiry e = false ->
  learning_complete (fst (session_step self e g)) = learning_complete self.
Proof.
  intros H.
  destruct e as [action_data now | | now | hour now]; cbn [session_step];
    try discriminate H.
  - unfold ret. cbn [fst].
    destruct (handle_vehicle_action_session_fields self action_data now)
      as (_ & -> & _). reflexivity.
  - destruct (break_reminder_sent self) eqn:F.
    + rewrite (send_break_reminder_fired self now g F). reflexivity.
    + destruct (send_break_reminder_armed self now g F) as (m & ->).
      reflexivity.
  - destruct (loop_guard self); [|reflexivity].
    destruct (recommendation_cycle_step self hour now g)
      as [->|(recs & _ & _ & _ & _ & _ & _ & -> & _)]; reflexivity.
Qed.

End Sessions.

(** X12: in every run of a session the count of recommendations sent
    is at most 50 and equals the number of published messages that are
    not the break reminder, so that at most 51 messages are published;
    once the count is 50 a pass of the loop changes nothing. *)
Theorem recommendations_capped (es : list SessionEvent) (g : list nat) :
  let self := fst (session_run es init g) in
  (recommendations_sent self <= 50)%nat
  /\ length (suggestions_published (published self))
     = recommendations_sent self
  /\ (length (published self) <= 51)%nat
  /\ forall hour now g',
       recommendations_sent self = 50%nat ->
       session_step self (OnLoopPass hour now) g' = (self, g').
Proof.
  intros self.
  destruct (session_run_invariant es init g init_invariant)
    as (I1 & I2 & _ & _).
  fold self in I1, I2.
  assert (B : at_most_one_reminder self).
  { apply (session_run_reminder es init g).
    split; [reflexivity | simpl; lia]. }
  destruct B as [_ B].
  unfold MAX_RECOMMENDATIONS_PER_SESSION in I1.
  repeat split; try assumption.
  - rewrite (filter_split_length is_break_reminder).
    fold (break_reminders (published self)).
    fold (suggestions_published (published self)). lia.
  - intros hour now g' H. cbn [session_step]. unfold loop_guard.
    rewrite H. unfold MAX_RECOMMENDATIONS_PER_SESSION.
    rewrite andb_false_r. reflexivity.
Qed.

(** X13: in a run of a session in which the learning timer has not
    expired, learning is not complete and no message but the break
    reminder is published. *)
Theorem nothing_recommended_while_learning (es : list SessionEvent)
    (g : list nat) :
  forallb (fun e => negb (is_learning_expiry e)) es = true ->
  let self := fst (session_run es init g) in
  learning_complete self = false
  /\ recommendations_sent self = 0%nat
  /\ suggestions_published (published self) = [].
Proof.
  intros H self.
  assert (C : forall es self g,
            forallb (fun e => negb (is_learning_expiry e)) es = true ->
            learning_complete (fst (session_run es self g))
            = learning_complete self).
  { clear. induction es as [|e es IH]; intros self g H; cbn [session_run].
    - reflexivity.
    - cbn [forallb] in H. apply andb_true_iff in H as [He H].
      apply negb_true_iff in He. unfold bind.
      pose proof (session_step_not_complete self e g He) as S.
      destruct (session_step self e g) as [self' g']. cbn [fst] in S.
      rewrite (IH self' g' H). exact S. }
  specialize (C es init g H). fold self in C.
  destruct (session_run_invariant es init g init_invariant)
    as (_ & I2 & I3 & _).
  fold self in I2, I3. cbn [learning_complete init] in C.
  specialize (I3 C). rewrite I3 in I2.
  repeat split; try assumption.
  destruct (suggestions_published (published self)); [reflexivity|].
  discriminate I2.
Qed.

Lemma nothing_recommended_while_learning_witness :
  suggestions_published
    (published (fst (session_run events_without_expiry init sample_draws)))
  = [].
Proof.
  apply (nothing_recommended_while_learning events_without_expiry sample_draws).
  reflexivity.
Defined.

(** X14: every message published in a run of a session is on the
    topic [vehicle/recommendations], has the type [ai_suggestion] and
    carries one or two recommendations. *)
Theorem publications_well_formed (es : list SessionEvent) (g : list nat) :
  Forall well_formed_publication (published (fst (session_run es init g))).
Proof.
  destruct (session_run_invariant es init g init_invariant) as (_ & _ & _ & I).
  exact I.
Qed.

(** X15: in a run of a session the flags [learning_started],
    [learning_complete] and [break_reminder_sent] never go back from
    true to false. *)
Theorem phases_never_go_back (es : list SessionEvent) :
  forall self g, flags_le self (fst (session_run es self g)).
Proof.
  induction es as [|e es IH]; intros self g; cbn [session_run].
  - unfold flags_le. auto.
  - unfold bind.
    pose proof (session_step_flags self e g) as S.
    destruct (session_step self e g) as [self' g']. cbn [fst] in S.
    specialize (IH self' g').
    unfold flags_le in *. intuition.
Qed.
